(** * SDKeyStore: encrypted recovery-phrase storage on flash and SD card

    A shallow embedding of [src/keystore/sdcard.py] (class [SDKeyStore])
    and the properties of its save / load / delete workflow.

    Python [str] and [bytes] values are byte sequences ([string]: MicroPython
    keeps a [str] as its UTF-8 bytes).  The coroutines of the class run in a
    state-and-exception monad over a [world] holding the keystore session,
    the storage media and the answers the user will give at each screen. *)

From Stdlib Require Import ZArith String Ascii List Lia.
From stdpp Require Import base option list gmap strings sorting.

Local Open Scope string_scope.

(** ** Python string primitives used by the class *)

Module PyStr.

(** [s.startswith(p)] *)
Definition startswith (s p : string) : bool := String.prefix p s.

(** [s[n:]] *)
Fixpoint drop (n : nat) (s : string) : string :=
  match n, s with
  | O, _ => s
  | S _, EmptyString => EmptyString
  | S n', String _ s' => drop n' s'
  end.

(** [s[:n]] *)
Fixpoint take (n : nat) (s : string) : string :=
  match n, s with
  | O, _ => EmptyString
  | S _, EmptyString => EmptyString
  | S n', String c s' => String c (take n' s')
  end.

(** [s.replace(p, "")] for a non-empty [p]: scan from the left, and at
    every position where [p] occurs drop the whole occurrence ([skip]
    counts the characters of the occurrence still to drop). *)
Fixpoint remove_from (p : string) (skip : nat) (s : string) : string :=
  match s with
  | EmptyString => EmptyString
  | String c s' =>
      match skip with
      | S k => remove_from p k s'
      | O => if String.prefix p s
             then remove_from p (Nat.pred (String.length p)) s'
             else String c (remove_from p O s')
      end
  end.

(** [s.replace(p, "")]; replacing the empty pattern by the empty string
    leaves [s] as it is. *)
Definition remove_all (s p : string) : string :=
  match p with
  | EmptyString => s
  | _ => remove_from p O s
  end.

Definition hexdigit (n : nat) : ascii :=
  match String.get n "0123456789abcdef" with
  | Some c => c
  | None => "0"%char
  end.

(** [binascii.hexlify(b)]: two lowercase digits per byte. *)
Fixpoint hexlify (b : string) : string :=
  match b with
  | EmptyString => EmptyString
  | String c b' =>
      let n := nat_of_ascii c in
      String (hexdigit (n / 16)) (String (hexdigit (n mod 16)) (hexlify b'))
  end.

(** Bytes taken by the character that the lead byte [c] starts. *)
Definition char_width (c : ascii) : nat :=
  let n := nat_of_ascii c in
  if Nat.ltb n 192 then 1
  else if Nat.ltb n 224 then 2
  else if Nat.ltb n 240 then 3
  else if Nat.ltb n 248 then 4
  else 1.

(** [s[1:]] on a [str]: the text after its first character, which takes
    as many bytes as its lead byte announces. *)
Definition tail (s : string) : string :=
  match s with
  | EmptyString => EmptyString
  | String c s' => drop (Nat.pred (char_width c)) s'
  end.

(** The UTF-8 check that [bytes.decode()] runs on the device (MicroPython's
    [utf8_check]): [need] continuation bytes are still owed to the
    character being read; a lead byte announces one to three of them, and
    the bytes 0x80..0xbf out of place and 0xf8..0xff are refused. *)
Fixpoint utf8_scan (need : nat) (b : string) : bool :=
  match b with
  | EmptyString => Nat.eqb need 0
  | String c b' =>
      let n := nat_of_ascii c in
      match need with
      | S k => if Nat.leb 128 n && Nat.ltb n 192 then utf8_scan k b' else false
      | O =>
          if Nat.leb 192 n then
            if Nat.leb 248 n then false
            else utf8_scan (Nat.pred (char_width c)) b'
          else if Nat.leb 128 n then false
          else utf8_scan 0 b'
      end
  end.

Definition utf8_check (b : string) : bool := utf8_scan 0 b.

(** [str.encode()]: a [str] is held as its UTF-8 bytes. *)
Definition encode (s : string) : string := s.

(** [bytes.decode()]: the [str] with these bytes; [None] stands for the
    [UnicodeError] raised when they are not UTF-8. *)
Definition decode (b : string) : option string :=
  if utf8_check b then Some b else None.

End PyStr.

(** ** Values, exceptions and outcomes *)

(** What the three record operations hand back: [True], [False] or [None]. *)
Inductive pyres := PyTrue | PyFalse | PyNone.

Definition truthy (v : pyres) : bool :=
  match v with PyTrue => true | _ => false end.

(** A path argument is a reference to a [str] object.  The class tests one
    of them by identity ([path is self.flashpath]), so a reference is either
    the very object the attribute [self.flashpath] holds, or some other
    [str] object, given by its value. *)
Inductive pathobj :=
| Flashpath
| Str (value : string).

Inductive exn :=
| KeyStoreError (msg : string)
| OSError (msg : string)
| CryptoError (msg : string)
| UnicodeError (msg : string).

Inductive outcome (A : Type) :=
| Returned (a : A)
| Raised (e : exn)
| Suspended   (* the coroutine waits at a screen for an answer that does not come *)
| OutOfFuel.
Arguments Returned {A} a.
Arguments Raised {A} e.
Arguments Suspended {A}.
Arguments OutOfFuel {A}.

(** ** Screens and the user *)

Inductive screen :=
| Menu (title note : option string) (buttons : list (string * bool))
| Prompt (title message : string)
| InputScreen (title note suggestion : string)
| Alert (title message button_text : string)
| MnemonicScreen (phrase : option string).

(** One answer of the user to the screen on display. *)
Inductive response :=
| Tap (i : nat)                  (* the i-th entry of a menu's button list *)
| Back                           (* the menu's last (back / cancel) button *)
| Answer (yes : bool)            (* a prompt *)
| Typed (text : option string)   (* what an input screen's get_value() holds *)
| Dismiss.                       (* OK on an alert or on the phrase screen *)

Inductive event :=
| EvMount
| EvUnmount
| EvSaveAead (path blob : string)
| EvLoadAead (path : string)
| EvRemove (path : string)
| EvSetMnemonic (phrase password : string)
| EvShow (s : screen)
| EvPrint (text : string).

(** ** The world: keystore session, platform, user *)

Record world := World {
  (* attributes of the keystore object (set up by the parent classes) *)
  is_locked : bool;
  mnemonic : option string;
  password : string;
  secret : string;
  enc_secret : string;
  flashpath : string;
  (* platform *)
  sdpath : string;               (* platform.fpath("/sd") *)
  sd_present : bool;
  sd_mounted : bool;
  files : gmap string string;    (* regular files, by full path *)
  dirs : gset string;            (* directories, by full path *)
  undeletable : gset string;     (* files on which os.remove raises OSError *)
  entropy : nat;                 (* randomness consumed so far *)
  (* the answers the user is going to give, in order *)
  answers : list response;
  (* what has happened so far, oldest first *)
  trace : list event
}.

Definition log (e : event) (w : world) : world :=
  World (is_locked w) (mnemonic w) (password w) (secret w) (enc_secret w)
        (flashpath w) (sdpath w) (sd_present w) (sd_mounted w) (files w)
        (dirs w) (undeletable w) (entropy w) (answers w) (trace w ++ [e]).

Definition with_answers (a : list response) (w : world) : world :=
  World (is_locked w) (mnemonic w) (password w) (secret w) (enc_secret w)
        (flashpath w) (sdpath w) (sd_present w) (sd_mounted w) (files w)
        (dirs w) (undeletable w) (entropy w) a (trace w).

Definition with_mounted (b : bool) (w : world) : world :=
  World (is_locked w) (mnemonic w) (password w) (secret w) (enc_secret w)
        (flashpath w) (sdpath w) (sd_present w) b (files w)
        (dirs w) (undeletable w) (entropy w) (answers w) (trace w).

Definition with_files (f : gmap string string) (w : world) : world :=
  World (is_locked w) (mnemonic w) (password w) (secret w) (enc_secret w)
        (flashpath w) (sdpath w) (sd_present w) (sd_mounted w) f
        (dirs w) (undeletable w) (entropy w) (answers w) (trace w).

Definition with_entropy (n : nat) (w : world) : world :=
  World (is_locked w) (mnemonic w) (password w) (secret w) (enc_secret w)
        (flashpath w) (sdpath w) (sd_present w) (sd_mounted w) (files w)
        (dirs w) (undeletable w) n (answers w) (trace w).

Definition with_mnemonic (m : option string) (pw : string) (w : world) : world :=
  World (is_locked w) m pw (secret w) (enc_secret w)
        (flashpath w) (sdpath w) (sd_present w) (sd_mounted w) (files w)
        (dirs w) (undeletable w) (entropy w) (answers w) (trace w).

(** ** The monad of the coroutines *)

Definition M (A : Type) : Type := world -> outcome A * world.

Definition ret {A} (a : A) : M A := fun w => (Returned a, w).

Definition bind {A B} (m : M A) (k : A -> M B) : M B :=
  fun w =>
    match m w with
    | (Returned a, w') => k a w'
    | (Raised e, w') => (Raised e, w')
    | (Suspended, w') => (Suspended, w')
    | (OutOfFuel, w') => (OutOfFuel, w')
    end.

Definition raise {A} (e : exn) : M A := fun w => (Raised e, w).
Definition suspend {A} : M A := fun w => (Suspended, w).
Definition reads {A} (f : world -> A) : M A := fun w => (Returned (f w), w).
Definition emit (e : event) : M unit := fun w => (Returned tt, log e w).

Declare Scope py_scope.
Delimit Scope py_scope with py.
Notation "x <- m ;; k" := (bind m (fun x => k))
  (at level 100, m at next level, right associativity) : py_scope.
Notation "m ;;; k" := (bind m (fun _ => k))
  (at level 100, right associativity) : py_scope.
Local Open Scope py_scope.

(** A statement either completes ([None]) or executes [return v]
    ([Some v]).  [try: body / except Exception as e: handler e]. *)
Definition try_except {A} (body : M A) (handler : exn -> M A) : M A :=
  fun w =>
    match body w with
    | (Raised e, w') => handler e w'
    | r => r
    end.

(** [try: body / finally: fin].  The [finally] suite runs however the body
    ended; when it executes a [return], that value is the result and an
    exception in flight is discarded; when it completes, the body's outcome
    stands. *)
Definition try_finally {R} (body fin : M (option R)) : M (option R) :=
  fun w =>
    match body w with
    | (Suspended, w') => (Suspended, w')
    | (OutOfFuel, w') => (OutOfFuel, w')
    | (r, w') =>
        match fin w' with
        | (Returned None, w'') => (r, w'')
        | other => other
        end
    end.

(** ** Platform, primitives of the parent classes, screens

    The modules [platform], [os], [gui.screens] and the parent classes
    ([FlashKeyStore] and the classes above it) are not part of this file of
    the repository; they are modelled at the interface the specification gives for
    them. *)

Definition nl : string := String (ascii_of_nat 10) EmptyString.

Definition path_value (self : world) (p : pathobj) : string :=
  match p with
  | Flashpath => flashpath self
  | Str s => s
  end.

(** [a is self.flashpath] and [a == b] on path references. *)
Definition is_flashpath (a : pathobj) : bool :=
  match a with Flashpath => true | Str _ => false end.

Definition path_eqb (self : world) (a b : pathobj) : bool :=
  String.eqb (path_value self a) (path_value self b).

Fixpoint has_slash (s : string) : bool :=
  match s with
  | EmptyString => false
  | String c s' => Ascii.eqb c "/"%char || has_slash s'
  end.

(** The name of [p] inside directory [d], when [p] is directly in [d]. *)
Definition child_name (d p : string) : option string :=
  if String.prefix (d ++ "/") p then
    let name := PyStr.drop (String.length d + 1) p in
    if has_slash name || String.eqb name "" then None else Some name
  else None.

Module platform.

(** Modelled from the spec: [mediaPresent()]. *)
Definition is_sd_present : M bool := reads sd_present.

(** Modelled from the spec: [mount()]; the card carries a mount state,
    unmounted by default and mounted for the duration of an operation. *)
Definition mount_sdcard : M unit :=
  fun w => (Returned tt, log EvMount (with_mounted true w)).

(** Modelled from the spec: [unmount()]. *)
Definition unmount_sdcard : M unit :=
  fun w => (Returned tt, log EvUnmount (with_mounted false w)).

(** Modelled from the spec: [pathExists(path)], true of files and of
    directories. *)
Definition file_exists (p : string) : M bool :=
  reads (fun w => bool_decide (is_Some (files w !! p)) || bool_decide (p ∈ dirs w)).

End platform.

Module os.

(** Modelled from the spec: [listDirectory(path)]; the names of the
    entries of a directory, [OSError] when there is no such directory. *)
Definition ilistdir (d : string) : M (list string) :=
  fun w =>
    if bool_decide (d ∈ dirs w) then
      (Returned (omap (child_name d) (map fst (map_to_list (files w)))
                 ++ omap (child_name d) (elements (dirs w)))%list, w)
    else (Raised (OSError "ENOENT"), w).

(** Modelled from the spec: [removeFile(path)]; it can fail with an I/O
    error. *)
Definition remove (p : string) : M unit :=
  fun w =>
    match files w !! p with
    | None => (Raised (OSError "ENOENT"), w)
    | Some _ =>
        if bool_decide (p ∈ undeletable w) then (Raised (OSError "EIO"), w)
        else (Returned tt, log (EvRemove p) (with_files (delete p (files w)) w))
    end.

End os.

Definition print (text : string) : M unit := emit (EvPrint text).

Definition exn_text (e : exn) : string :=
  match e with
  | KeyStoreError m => m
  | OSError m => m
  | CryptoError m => m
  | UnicodeError m => m
  end.

(** Modelled from the spec: the interaction surface.  [self.show(scr)]
    puts a screen up and suspends until the user answers. *)
Definition show (scr : screen) : M response :=
  fun w =>
    let w' := log (EvShow scr) w in
    match answers w with
    | [] => (Suspended, w')
    | r :: rest => (Returned r, with_answers rest w')
    end.

(** A menu button: identifier ([None] for a caption), text, enabled. *)
Definition button (A : Type) : Type := option A * string * bool.

(** Modelled from the spec: [showMenu(options) -> selection | Cancelled].
    [await self.show(Menu(buttons, title, note, last=(last, _)))] gives the
    identifier of the enabled button the user taps, or [last]. *)
Definition show_menu {A} (title note : option string)
    (buttons : list (button A)) (last : option A) : M (option A) :=
  r <- show (Menu title note (map (fun b : button A => (snd (fst b), snd b)) buttons)) ;;
  match r with
  | Back => ret last
  | Tap i =>
      match buttons !! i with
      | Some (Some v, _, true) => ret (Some v)
      | _ => suspend
      end
  | _ => suspend
  end.

(** Modelled from the spec: [showPrompt(question) -> bool]. *)
Definition show_prompt (title message : string) : M bool :=
  r <- show (Prompt title message) ;;
  match r with
  | Answer b => ret b
  | _ => suspend
  end.

(** Modelled from the spec: [showAlert(title, message)]. *)
Definition show_alert (title message button_text : string) : M unit :=
  r <- show (Alert title message button_text) ;;
  match r with
  | Dismiss => ret tt
  | _ => suspend
  end.

(** Modelled from the spec: [setMnemonic(text, passphrase)], the mutator of
    the in-memory mnemonic. *)
Definition set_mnemonic (text pw : string) : M unit :=
  fun w => (Returned tt, log (EvSetMnemonic text pw) (with_mnemonic (Some text) pw w)).

(** Modelled from the spec: the phrase view of the parent class. *)
Definition show_mnemonic : M unit :=
  m <- reads mnemonic ;;
  r <- show (MnemonicScreen m) ;;
  match r with
  | Dismiss => ret tt
  | _ => suspend
  end.

(** The order of [list.sort()] on the two-element lists
    [[name, displayname]]: by name, then by display name. *)
Definition entry_leb (a b : string * string) : bool :=
  match String.compare (fst a) (fst b) with
  | Lt => true
  | Eq => String.leb (snd a) (snd b)
  | Gt => false
  end.

Definition entry_le (a b : string * string) : Prop := entry_leb a b = true.

#[global] Instance entry_le_dec : RelDecision entry_le.
Proof. intros a b. unfold entry_le. apply _. Defined.

Definition render (v : pyres) : string :=
  match v with
  | PyTrue => "True"
  | PyFalse => "False"
  | PyNone => "None"
  end.

(** ** Auxiliary notions for the statements *)

(** [path == self.sdpath] *)
Definition on_sd (w : world) (p : pathobj) : bool := path_eqb w p (Str (sdpath w)).

(** The world after the conditional mount, resp. unmount, of an operation. *)
Definition mounted_for (b : bool) (w : world) : world :=
  if b then log EvMount (with_mounted true w) else w.

Definition unmounted_for (b : bool) (w : world) : world :=
  if b then log EvUnmount (with_mounted false w) else w.

(** [frame w w']: from [w] to [w'] nothing happened but mounting,
    unmounting, showing screens and printing. *)
Record frame (w w' : world) : Prop := Frame {
  fr_locked : is_locked w' = is_locked w;
  fr_mnemonic : mnemonic w' = mnemonic w;
  fr_password : password w' = password w;
  fr_secret : secret w' = secret w;
  fr_enc_secret : enc_secret w' = enc_secret w;
  fr_flashpath : flashpath w' = flashpath w;
  fr_sdpath : sdpath w' = sdpath w;
  fr_sd_present : sd_present w' = sd_present w;
  fr_files : files w' = files w;
  fr_dirs : dirs w' = dirs w;
  fr_undeletable : undeletable w' = undeletable w;
  fr_entropy : entropy w' = entropy w;
  fr_trace : exists evs, trace w' = (trace w ++ evs)%list
}.

(** ** Sample primitives and worlds, for evaluating the class *)

Module Sample.

Definition hash (tag data : string) : string := tag ++ data.

(** A stand-in for the authenticated cipher: the blob is the key followed
    by the plaintext, and opening checks the key. *)
Definition seal (n : nat) (key ad pt : string) : string := key ++ pt.

Definition open (key blob : string) : option (string * string) :=
  if String.prefix key blob
  then Some ("", PyStr.drop (String.length key) blob)
  else None.

(** A cipher whose blobs never authenticate (a card that corrupts data). *)
Definition open_never (key blob : string) : option (string * string) := None.

(** An unlocked keystore with a loaded phrase, flash and SD card holding
    records; the flash record [reckless.alice] cannot be removed. *)
Definition device (a : list response) : world :=
  {| is_locked := false;
     mnemonic := Some "abandon ability able";
     password := "hunter2";
     secret := "S";
     enc_secret := "K";
     flashpath := "/flash";
     sdpath := "/sd";
     sd_present := true;
     sd_mounted := false;
     files := {[ "/flash/reckless.alice" := "Kzoo zone zero";
                 "/flash/reckless.my.reckless.key" := "Kzoo zone zero";
                 "/flash/other.file" := "x";
                 "/sd/specterdiy73646964.alice" := "Kzoo zone zero";
                 "/sd/specterdiy73646964.bob" := "Kzoo zone zero" ]};
     dirs := {[ "/flash"; "/sd" ]};
     undeletable := {[ "/flash/reckless.alice" ]};
     entropy := 0;
     answers := a;
     trace := [] |}.

(** The same device before the PIN is entered. *)
Definition locked_device (a : list response) : world :=
  {| is_locked := true;
     mnemonic := None;
     password := "";
     secret := "S";
     enc_secret := "";
     flashpath := "/flash";
     sdpath := "/sd";
     sd_present := true;
     sd_mounted := false;
     files := {[ "/flash/reckless.bob" := "Kzoo zone zero" ]};
     dirs := {[ "/flash"; "/sd" ]};
     undeletable := ∅;
     entropy := 0;
     answers := a;
     trace := [] |}.

End Sample.

(** ** class SDKeyStore *)

Section SDKeyStore.

(** [helpers.tagged_hash(tag, data)] *)
Variable tagged_hash : string -> string -> string.

(** The authenticated-encryption primitive behind [save_aead] and
    [load_aead]: sealing takes fresh randomness, the key, the associated
    data and the plaintext; opening gives back associated data and
    plaintext, or fails to authenticate. *)
Variable aead_encrypt : nat -> string -> string -> string -> string.
Variable aead_decrypt : string -> string -> option (string * string).

(** Modelled from the spec: [encrypt(path, plaintext, key)]. *)
Definition save_aead (p plaintext key : string) : M unit :=
  fun w =>
    let blob := aead_encrypt (entropy w) key "" plaintext in
    (Returned tt,
     log (EvSaveAead p blob)
       (with_entropy (S (entropy w)) (with_files (<[p := blob]> (files w)) w))).

(** Modelled from the spec: [(metadata, plaintext) = decrypt(path, key)];
    it fails the call if authentication fails. *)
Definition load_aead (p key : string) : M (string * string) :=
  fun w =>
    match files w !! p with
    | None => (Raised (OSError "ENOENT"), w)
    | Some blob =>
        match aead_decrypt key blob with
        | Some r => (Returned r, log (EvLoadAead p) w)
        | None => (Raised (CryptoError "authentication failed"), log (EvLoadAead p) w)
        end
    end.

Definition fileprefix (self : world) (path : pathobj) : string :=
  if is_flashpath path then "reckless"
  else
    let hex := PyStr.hexlify (PyStr.take 4 (tagged_hash "sdid" (secret self))) in
    (* [.decode()] cannot raise here: hex digits are ASCII ([decode_hexlify]) *)
    let hexid := default hex (PyStr.decode hex) in
    "specterdiy" ++ hexid.

Definition get_keypath (title : string) (only_if_exist : bool) (note : option string)
  : M (option pathobj) :=
  (* enable / disable buttons *)
  flash_exists <- (fun w => platform.file_exists (flashpath w) w) ;;
  let enable_flash := negb only_if_exist || flash_exists in
  present <- platform.is_sd_present ;;
  enable_sd <-
    (if present then
       platform.mount_sdcard ;;;
       sd_exists <- (fun w => platform.file_exists (sdpath w) w) ;;
       platform.unmount_sdcard ;;;
       ret (negb only_if_exist || sd_exists)
     else ret false) ;;
  sd <- reads sdpath ;;
  let buttons : list (button pathobj) :=
    [ (None, "Make your choice", true);
      (Some Flashpath, "Internal flash", enable_flash);
      (Some (Str sd), "SD card", enable_sd) ] in
  res <- show_menu (Some title) note buttons None ;;
  ret res.

(** The label of a listed file.  [displayname is ""] holds exactly when
    the string is empty: the empty [str] is a single interned object. *)
Definition displayname (name prefix : string) : string :=
  let d := PyStr.remove_all name prefix in
  if String.eqb d "" then "Default"
  else PyStr.tail d.  (* strip first character *)

Definition select_file (path : pathobj) (prefix : string) : M (option string) :=
  names <- (fun w => os.ilistdir (path_value w path) w) ;;
  let files :=
    omap (fun name : string =>
            if PyStr.startswith name prefix
            then Some (name, displayname name prefix)
            else None) names in
  if Nat.eqb (List.length files) 0 then
    raise (KeyStoreError (nl ++ nl ++ "No matching files found"))
  else
    let files := merge_sort entry_le files in
    let buttons : list (button string) :=
      map (fun file : string * string => (Some (fst file), snd file, true)) files in
    fname <- show_menu (Some "Select a file") None buttons None ;;
    ret fname.

Definition load_mnemonic (path : option pathobj) (file : option string) : M pyres :=
  locked <- reads is_locked ;;
  if locked : bool then raise (KeyStoreError "Keystore is locked") else
  path <- match path with
          | None => get_keypath "From where to load?" true (Some "Select media")
          | Some p => ret (Some p)
          end ;;
  match path with
  | None => ret PyFalse
  | Some path =>
      on_sd <- reads (fun self => path_eqb self path (Str (sdpath self))) ;;
      (if on_sd : bool then
         present <- platform.is_sd_present ;;
         if present : bool then platform.mount_sdcard
         else raise (KeyStoreError "SD card is not present")
       else ret tt) ;;;
      file <- match file with
              | None =>
                  prefix <- reads (fun self => fileprefix self path) ;;
                  select_file path prefix
              | Some f => ret (Some f)
              end ;;
      match file with
      | None => ret PyFalse
      | Some file =>
          print ("loading " ++ file) ;;;
          target <- reads (fun self => path_value self path ++ "/" ++ file) ;;
          found <- platform.file_exists target ;;
          if negb found then raise (KeyStoreError "Key is not saved") else
          key <- reads enc_secret ;;
          r <- load_aead target key ;;
          let data := snd r in
          (if on_sd : bool then platform.unmount_sdcard else ret tt) ;;;
          text <- match PyStr.decode data with
                  | Some text => ret text
                  | None => raise (UnicodeError "")
                  end ;;
          set_mnemonic text "" ;;;
          ret PyTrue
      end
  end.

Definition save_mnemonic (filename : string) (path : option pathobj) : M pyres :=
  locked <- reads is_locked ;;
  if locked : bool then raise (KeyStoreError "Keystore is locked") else
  phrase <- reads mnemonic ;;
  match phrase with
  | None => raise (KeyStoreError "Recovery phrase is not loaded")
  | Some phrase =>
      path <- match path with
              | None => get_keypath "Where to save?" false (Some "Select media")
              | Some p => ret (Some p)
              end ;;
      match path with
      | None => ret PyFalse
      | Some path =>
          on_sd <- reads (fun self => path_eqb self path (Str (sdpath self))) ;;
          (if on_sd : bool then
             present <- platform.is_sd_present ;;
             if present : bool then platform.mount_sdcard
             else raise (KeyStoreError "SD card is not present")
           else ret tt) ;;;
          target <- reads (fun self =>
                      path_value self path ++ "/" ++ fileprefix self path ++ "." ++ filename) ;;
          found <- platform.file_exists target ;;
          go <- (if found : bool then
                   show_prompt (nl ++ nl ++ "File already exists: " ++ filename ++ nl)
                               "Would you like to overwrite this file?"
                 else ret true) ;;
          if negb go then ret PyNone else
          key <- reads enc_secret ;;
          save_aead target (PyStr.encode phrase) key ;;;
          (if on_sd : bool then platform.unmount_sdcard else ret tt) ;;;
          (* check it's ok *)
          prefix <- reads (fun self => fileprefix self path) ;;
          _ <- load_mnemonic (Some path) (Some (prefix ++ "." ++ filename)) ;;
          ret PyTrue
      end
  end.

Definition delete_mnemonic (path : option pathobj) : M pyres :=
  path <- match path with
          | None => get_keypath "From where to delete?" true None
          | Some p => ret (Some p)
          end ;;
  match path with
  | None => ret PyFalse
  | Some path =>
      on_sd <- reads (fun self => path_eqb self path (Str (sdpath self))) ;;
      (if on_sd : bool then
         present <- platform.is_sd_present ;;
         if present : bool then platform.mount_sdcard
         else raise (KeyStoreError "SD card is not present")
       else ret tt) ;;;
      prefix <- reads (fun self => fileprefix self path) ;;
      file <- select_file path prefix ;;
      match file with
      | None => ret PyFalse
      | Some file =>
          target <- reads (fun self => path_value self path ++ "/" ++ file) ;;
          dir <- reads (fun self => path_value self path) ;;
          found <- platform.file_exists target ;;
          if negb found then raise (KeyStoreError "File not found.") else
          r <- try_finally
                 (try_except
                    (os.remove target ;;; ret None)
                    (fun e =>
                       print (exn_text e) ;;;
                       raise (KeyStoreError
                                ("Failed to delete file '" ++ file ++ "' from " ++ dir))))
                 ((if on_sd : bool then platform.unmount_sdcard else ret tt) ;;;
                  ret (Some PyTrue)) ;;
          match r with
          | Some v => ret v
          | None => ret PyNone
          end
      end
  end.

Definition get_input : M (option string) :=
  r <- show (InputScreen "Enter a name for this seed"
               ("Naming your seeds allows you to store multiple." ++ nl
                ++ "Give each seed a unique name!")
               "") ;;
  match r with
  | Typed v => ret v
  | _ => suspend
  end.

Definition storage_buttons : list (button Z) :=
  [ (None, "Manage keys on SD card and internal flash", true);
    (Some 0%Z, "Save key", true);
    (Some 1%Z, "Load key", true);
    (Some 2%Z, "Delete key", true);
    (None, "Other", true);
    (Some 3%Z, "Show recovery phrase", true) ].

(** [storage_menu]: one unit of fuel per turn of the [while True] loop. *)
Fixpoint storage_menu (fuel : nat) : M unit :=
  match fuel with
  | O => fun w => (OutOfFuel, w)
  | S fuel' =>
      (* wait for menu selection *)
      menuitem <- show_menu None None storage_buttons (Some 255%Z) ;;
      if bool_decide (menuitem = Some 255%Z) then ret tt   (* back button *)
      else if bool_decide (menuitem = Some 0%Z) then
        filename <- get_input ;;
        match filename with
        | None => ret tt
        | Some filename =>
            if String.eqb filename "" then
              show_alert "Error!"
                ("Please provide a valid name!" ++ nl ++ nl ++ "Your file has NOT been saved.")
                "OK" ;;;
              ret tt
            else
              saved <- save_mnemonic filename None ;;
              (if truthy saved then
                 show_alert "Success!"
                   ("Your key is stored now." ++ nl ++ nl ++ "Name: " ++ filename) "OK"
               else ret tt) ;;;
              storage_menu fuel'
        end
      else if bool_decide (menuitem = Some 1%Z) then
        res <- load_mnemonic None None ;;
        print (render res) ;;;
        (if truthy res then show_alert "Success!" "Your key is loaded." "OK"
         else ret tt) ;;;
        storage_menu fuel'
      else if bool_decide (menuitem = Some 2%Z) then
        deleted <- delete_mnemonic None ;;
        (if truthy deleted then show_alert "Success!" "Your key is deleted." "OK"
         else ret tt) ;;;
        storage_menu fuel'
      else if bool_decide (menuitem = Some 3%Z) then
        show_mnemonic ;;;
        storage_menu fuel'
      else storage_menu fuel'
  end.

(** The file a save of [filename] under [path] writes. *)
Definition target_of (w : world) (path : pathobj) (filename : string) : string :=
  path_value w path ++ "/" ++ fileprefix w path ++ "." ++ filename.

(** The blob a save writes, and the world just after the write. *)
Definition blob_of (w : world) (phrase : string) : string :=
  aead_encrypt (entropy w) (enc_secret w) "" (PyStr.encode phrase).

Definition written (target blob : string) (w : world) : world :=
  log (EvSaveAead target blob)
    (with_entropy (S (entropy w)) (with_files (<[target := blob]> (files w)) w)).

(** The entries [select_file] offers: the names that start with the
    prefix, each with its label, in the order of [list.sort()]. *)
Definition offered (names : list string) (prefix : string) : list (string * string) :=
  merge_sort entry_le
    (omap (fun name : string =>
             if PyStr.startswith name prefix
             then Some (name, displayname name prefix)
             else None) names).

(** The question [save_mnemonic] asks when the target exists. *)
Definition overwrite_prompt (filename : string) : screen :=
  Prompt (nl ++ nl ++ "File already exists: " ++ filename ++ nl)
         "Would you like to overwrite this file?".

(** The world a successful save or load ends in, given the world [w2] just
    before the blob is opened. *)
Definition loaded (b : bool) (target text : string) (w2 : world) : world :=
  log (EvSetMnemonic text "")
    (with_mnemonic (Some text) "" (unmounted_for b (log (EvLoadAead target) w2))).

(** How the outcome of a callee that did not return shows in the caller. *)
Definition passes {A B} (o : outcome A) (out : outcome B) : Prop :=
  match o with
  | Returned _ => False
  | Raised e => out = Raised e
  | Suspended => out = Suspended
  | OutOfFuel => out = OutOfFuel
  end.

(** [is_key_saved], a property of the class. *)
Definition is_key_saved : M bool :=
  flash_exists <- (fun w => platform.file_exists (flashpath w) w) ;;
  present <- platform.is_sd_present ;;
  if negb present then ret flash_exists else
  platform.mount_sdcard ;;;
  sd_exists <- (fun w => platform.file_exists (sdpath w) w) ;;
  platform.unmount_sdcard ;;;
  ret (sd_exists || flash_exists).

(** What [platform.file_exists] answers in a world. *)
Definition path_exists (w : world) (p : string) : bool :=
  bool_decide (is_Some (files w !! p)) || bool_decide (p ∈ dirs w).

(** An operation is tame when it never runs out of fuel and never puts
    answers back: the answers left are at most those it started with. *)
Definition tame {A} (m : M A) : Prop :=
  forall w out w',
    m w = (out, w') ->
    out <> OutOfFuel /\ List.length (answers w') <= List.length (answers w).

(** The characters of lowercase hexadecimal. *)
Definition is_hexdigit (c : ascii) : bool :=
  match String.index 0 (String c "") "0123456789abcdef" with
  | Some _ => true
  | None => false
  end.

Fixpoint all_hexdigits (s : string) : bool :=
  match s with
  | EmptyString => true
  | String c s' => is_hexdigit c && all_hexdigits s'
  end.

(** The value of a lowercase hexadecimal digit, and the inverse of
    [hexlify]; they serve to show that [hexlify] loses nothing. *)
Definition hexvalue (c : ascii) : nat :=
  match String.index 0 (String c "") "0123456789abcdef" with
  | Some n => n
  | None => 0
  end.

Fixpoint unhexlify (s : string) : string :=
  match s with
  | String h (String l s') =>
      String (ascii_of_nat (16 * hexvalue h + hexvalue l)) (unhexlify s')
  | _ => EmptyString
  end.

(** [safe n m]: started with fewer than [n] answers to come, [m] does not
    run out of fuel. *)
Definition safe {A} (n : nat) (m : M A) : Prop :=
  forall w, List.length (answers w) < n -> fst (m w) <> OutOfFuel.

(** The main menu of [storage_menu]. *)
Definition storage_screen : screen :=
  Menu None None
    [ ("Manage keys on SD card and internal flash", true);
      ("Save key", true); ("Load key", true); ("Delete key", true);
      ("Other", true); ("Show recovery phrase", true) ].

(** The screen [get_input] puts up. *)
Definition name_screen : screen :=
  InputScreen "Enter a name for this seed"
    ("Naming your seeds allows you to store multiple." ++ nl
     ++ "Give each seed a unique name!")
    "".

(** The device with the card pulled out. *)
Definition card_removed (w : world) : world :=
  World (is_locked w) (mnemonic w) (password w) (secret w) (enc_secret w)
        (flashpath w) (sdpath w) false (sd_mounted w) (files w)
        (dirs w) (undeletable w) (entropy w) (answers w) (trace w).

(** ** Frame lemmas *)

(** Hex digits are ASCII, so decoding the output of [hexlify] never fails. *)
Lemma utf8_scan_hexlify b : PyStr.utf8_scan 0 (PyStr.hexlify b) = true.
Proof.
  induction b as [|c b IH]; [done|].
  destruct c as [[] [] [] [] [] [] [] []]; exact IH.
Qed.

Lemma decode_hexlify b : PyStr.decode (PyStr.hexlify b) = Some (PyStr.hexlify b).
Proof. unfold PyStr.decode, PyStr.utf8_check. by rewrite utf8_scan_hexlify. Qed.

(** What decodes is kept byte for byte. *)
Lemma decode_Some b text : PyStr.decode b = Some text -> text = b.
Proof. unfold PyStr.decode. destruct (PyStr.utf8_check b); congruence. Qed.

Lemma fileprefix_other self s :
  fileprefix self (Str s)
  = "specterdiy" ++ PyStr.hexlify (PyStr.take 4 (tagged_hash "sdid" (secret self))).
Proof. unfold fileprefix. simpl is_flashpath. cbv iota zeta. by rewrite decode_hexlify. Qed.

Lemma frame_refl w : frame w w.
Proof. split; try reflexivity. exists []. by rewrite app_nil_r. Qed.

Lemma frame_trans w1 w2 w3 : frame w1 w2 -> frame w2 w3 -> frame w1 w3.
Proof.
  intros [] []. split; try congruence.
  destruct fr_trace0 as [e1 E1], fr_trace1 as [e2 E2].
  exists (e1 ++ e2)%list. rewrite E2, E1. by rewrite app_assoc.
Qed.

Lemma frame_log e w : frame w (log e w).
Proof. split; try reflexivity. by exists [e]. Qed.

Lemma frame_with_answers a w : frame w (with_answers a w).
Proof. split; try reflexivity. exists []. by rewrite app_nil_r. Qed.

Lemma frame_with_mounted b w : frame w (with_mounted b w).
Proof. split; try reflexivity. exists []. by rewrite app_nil_r. Qed.

Lemma frame_mounted_for b w : frame w (mounted_for b w).
Proof.
  destruct b; simpl; [|apply frame_refl].
  eapply frame_trans; [apply frame_with_mounted | apply frame_log].
Qed.

Lemma frame_unmounted_for b w : frame w (unmounted_for b w).
Proof.
  destruct b; simpl; [|apply frame_refl].
  eapply frame_trans; [apply frame_with_mounted | apply frame_log].
Qed.

Lemma path_value_ext w w' p :
  flashpath w' = flashpath w -> path_value w' p = path_value w p.
Proof. intros E. destruct p; simpl; congruence. Qed.

Lemma on_sd_ext w w' p :
  flashpath w' = flashpath w -> sdpath w' = sdpath w -> on_sd w' p = on_sd w p.
Proof.
  intros E1 E2. unfold on_sd, path_eqb. rewrite !(path_value_ext w w') by done.
  simpl. by rewrite E2.
Qed.

Lemma fileprefix_ext w w' p : secret w' = secret w -> fileprefix w' p = fileprefix w p.
Proof. intros E. unfold fileprefix. by rewrite E. Qed.

Lemma path_value_frame w w' p : frame w w' -> path_value w' p = path_value w p.
Proof. intros F. apply path_value_ext, F. Qed.

Lemma on_sd_frame w w' p : frame w w' -> on_sd w' p = on_sd w p.
Proof. intros F. apply on_sd_ext; apply F. Qed.

Lemma fileprefix_frame w w' p : frame w w' -> fileprefix w' p = fileprefix w p.
Proof. intros F. apply fileprefix_ext, F. Qed.

Lemma bind_Returned_inv {A B} (m : M A) (k : A -> M B) w b w' :
  bind m k w = (Returned b, w') ->
  exists a w1, m w = (Returned a, w1) /\ k a w1 = (Returned b, w').
Proof.
  unfold bind. destruct (m w) as [[a| | |] w1]; intros H; try discriminate. eauto.
Qed.

Lemma show_frame scr w out w' : show scr w = (out, w') -> frame w w'.
Proof.
  unfold show. destruct (answers w); intros H; simplify_eq.
  - apply frame_log.
  - eapply frame_trans; [apply frame_log | apply frame_with_answers].
Qed.

Lemma show_menu_frame {A} t n (bs : list (button A)) last w out w' :
  show_menu t n bs last w = (out, w') -> frame w w'.
Proof.
  unfold show_menu, bind. destruct (show _ w) as [o w1] eqn:Hs.
  apply show_frame in Hs.
  destruct o as [r| | |]; try (intros; simplify_eq; done).
  destruct r; unfold ret, suspend; try (intros; simplify_eq; done).
  destruct (bs !! i) as [[[[v|] ?] [|]]|]; intros; simplify_eq; done.
Qed.

Lemma get_keypath_frame t o n w out w' :
  get_keypath t o n w = (out, w') -> frame w w'.
Proof.
  unfold get_keypath, bind, platform.file_exists, platform.is_sd_present, reads,
    platform.mount_sdcard, platform.unmount_sdcard, ret.
  destruct (sd_present w) eqn:Hp.
  - destruct (show_menu _ _ _ _ _) as [o1 w1] eqn:Hs. apply show_menu_frame in Hs.
    intros H. assert (w' = w1) as -> by (destruct o1; simplify_eq; done).
    eapply frame_trans; [|exact Hs].
    eapply frame_trans; [apply frame_with_mounted|]. eapply frame_trans; [apply frame_log|].
    eapply frame_trans; [apply frame_with_mounted|]. apply frame_log.
  - destruct (show_menu _ _ _ _ _) as [o1 w1] eqn:Hs. apply show_menu_frame in Hs.
    intros H. assert (w' = w1) as -> by (destruct o1; simplify_eq; done). done.
Qed.

Lemma select_file_frame p pre w out w' :
  select_file p pre w = (out, w') -> frame w w'.
Proof.
  unfold select_file, bind, os.ilistdir.
  destruct (bool_decide _); [|intros; simplify_eq; apply frame_refl].
  destruct (Nat.eqb _ _); [unfold raise; intros; simplify_eq; apply frame_refl|].
  destruct (show_menu _ _ _ _ _) as [o1 w1] eqn:Hs. apply show_menu_frame in Hs.
  unfold ret. intros H. assert (w' = w1) as -> by (destruct o1; simplify_eq; done). done.
Qed.

(** The mount step that opens the three record operations. *)
Lemma mount_step_inv (b : bool) w (u : unit) w' :
  (if b then
     present <- platform.is_sd_present ;;
     if present : bool then platform.mount_sdcard
     else raise (KeyStoreError "SD card is not present")
   else ret tt) w = (Returned u, w') ->
  w' = mounted_for b w /\ (b = true -> sd_present w = true).
Proof.
  destruct b; simpl.
  - unfold bind, platform.is_sd_present, reads, platform.mount_sdcard, raise.
    destruct (sd_present w); intros; simplify_eq; done.
  - unfold ret. intros; simplify_eq; done.
Qed.

Lemma unmount_step_inv (b : bool) w (u : unit) w' :
  (if b then platform.unmount_sdcard else ret tt) w = (Returned u, w') ->
  w' = unmounted_for b w.
Proof.
  destruct b; unfold platform.unmount_sdcard, ret; intros; simplify_eq; done.
Qed.

(** ** Loads that return *)

Lemma load_Returned_inv path file w v w' :
  load_mnemonic path file w = (Returned v, w') ->
  is_locked w = false /\
  ((v = PyFalse /\ (path = None \/ file = None) /\ frame w w')
   \/ (v = PyTrue /\
       exists p f w1 blob r text,
         (forall p0, path = Some p0 -> p = p0) /\
         (forall f0, file = Some f0 -> f = f0) /\
         frame w w1 /\
         (on_sd w p = true -> sd_present w = true) /\
         files w !! (path_value w p ++ "/" ++ f) = Some blob /\
         aead_decrypt (enc_secret w) blob = Some r /\
         PyStr.decode (snd r) = Some text /\
         w' = log (EvSetMnemonic text "")
                (with_mnemonic (Some text) ""
                   (unmounted_for (on_sd w p)
                      (log (EvLoadAead (path_value w p ++ "/" ++ f)) w1))))).
Proof.
  unfold load_mnemonic. intros H.
  apply bind_Returned_inv in H as (locked & w0 & H0 & H).
  unfold reads in H0. simplify_eq.
  destruct (is_locked w0) eqn:Hl; [discriminate|]. split; [done|].
  apply bind_Returned_inv in H as (op & w1 & Hp & H).
  assert (frame w0 w1) as F1.
  { destruct path; [unfold ret in Hp; simplify_eq; apply frame_refl|].
    by eapply get_keypath_frame. }
  destruct op as [p|].
  2:{ left. unfold ret in H. simplify_eq.
      destruct path; [unfold ret in Hp; simplify_eq|]. auto. }
  apply bind_Returned_inv in H as (sd & w2 & H2 & H). unfold reads in H2. simplify_eq.
  apply bind_Returned_inv in H as (u & w3 & H3 & H).
  apply mount_step_inv in H3 as [-> Hpres].
  fold (on_sd w2 p) in *.
  assert (frame w0 (mounted_for (on_sd w2 p) w2)) as F2.
  { eapply frame_trans; [exact F1|apply frame_mounted_for]. }
  apply bind_Returned_inv in H as (ofile & w4 & H4 & H).
  assert (frame w0 w4) as F4.
  { eapply frame_trans; [exact F2|].
    destruct file; [unfold ret in H4; simplify_eq; apply frame_refl|].
    apply bind_Returned_inv in H4 as (? & ? & E & H4). unfold reads in E. simplify_eq.
    by eapply select_file_frame. }
  destruct ofile as [f|].
  2:{ left. unfold ret in H. simplify_eq.
      destruct file; [unfold ret in H4; simplify_eq|]. auto. }
  right.
  apply bind_Returned_inv in H as (u1 & w5 & H5 & H). unfold print, emit in H5. simplify_eq.
  apply bind_Returned_inv in H as (t & w6 & H6 & H). unfold reads in H6. simplify_eq.
  apply bind_Returned_inv in H as (found & w7 & H7 & H).
  unfold platform.file_exists, reads in H7. simplify_eq.
  match type of H with (if negb ?b then _ else _) _ = _ => destruct b eqn:Hf end;
    [|discriminate].
  simpl in H.
  apply bind_Returned_inv in H as (key & w8 & H8 & H). unfold reads in H8. simplify_eq.
  apply bind_Returned_inv in H as (r & w9 & H9 & H). unfold load_aead in H9.
  destruct (files _ !! _) as [blob|] eqn:Hblob; [|discriminate].
  destruct (aead_decrypt _ _) as [r'|] eqn:Hdec; [|discriminate]. simplify_eq.
  apply bind_Returned_inv in H as (u2 & w10 & H10 & H).
  apply unmount_step_inv in H10 as ->.
  apply bind_Returned_inv in H as (text & w12 & H12 & H).
  destruct (PyStr.decode (snd r)) as [text'|] eqn:Htext; [|discriminate].
  unfold ret in H12.
  apply bind_Returned_inv in H as (u3 & w11 & H11 & H).
  unfold set_mnemonic in H11. unfold ret in H. simplify_eq.
  assert (frame w0 (log (EvPrint ("loading " +:+ f)) w4)) as F5.
  { eapply frame_trans; [exact F4|apply frame_log]. }
  simpl in Hblob, Hdec.
  rewrite (path_value_frame w0 _ p F5) in *.
  rewrite (fr_files _ _ F4) in Hblob. rewrite (fr_enc_secret _ _ F4) in Hdec.
  rewrite (on_sd_frame w0 w2 p F1) in *.
  split; [done|].
  exists p, f, (log (EvPrint ("loading " +:+ f)) w4), blob, r, text.
  split; [intros p0 ->; unfold ret in Hp; simplify_eq; done|].
  split; [intros f0 ->; unfold ret in H4; simplify_eq; done|].
  split; [exact F5|].
  split; [intros E; apply Hpres in E; by rewrite <- (fr_sd_present _ _ F1)|].
  done.
Qed.

(** ** Saves that return *)

Lemma show_prompt_inv t m w (b : bool) w' :
  show_prompt t m w = (Returned b, w') ->
  exists rest, answers w = Answer b :: rest /\
    w' = with_answers rest (log (EvShow (Prompt t m)) w).
Proof.
  unfold show_prompt, bind, show.
  destruct (answers w) as [|[] rest]; unfold ret, suspend; intros; simplify_eq.
  eauto.
Qed.

Lemma save_Returned_inv filename path w v w' :
  save_mnemonic filename path w = (Returned v, w') ->
  is_locked w = false /\
  exists phrase, mnemonic w = Some phrase /\
    ((v = PyFalse /\ path = None /\ frame w w')
     \/ (v = PyNone /\ frame w w')
     \/ (v = PyTrue /\
         exists p w1 w2 r text,
           (forall p0, path = Some p0 -> p = p0) /\
           frame w w1 /\
           (on_sd w p = true -> sd_present w = true) /\
           frame (unmounted_for (on_sd w p)
                    (written (target_of w p filename) (blob_of w phrase) w1)) w2 /\
           aead_decrypt (enc_secret w) (blob_of w phrase) = Some r /\
           PyStr.decode (snd r) = Some text /\
           w' = log (EvSetMnemonic text "")
                  (with_mnemonic (Some text) ""
                     (unmounted_for (on_sd w p)
                        (log (EvLoadAead (target_of w p filename)) w2))))).
Proof.
  unfold save_mnemonic. intros H.
  apply bind_Returned_inv in H as (locked & w0 & H0 & H).
  unfold reads in H0. simplify_eq.
  destruct (is_locked w0) eqn:Hl; [discriminate|]. split; [done|].
  apply bind_Returned_inv in H as (ph & w1 & H1 & H). unfold reads in H1. simplify_eq.
  destruct (mnemonic w1) as [phrase|] eqn:Hm; [|discriminate].
  exists phrase. split; [done|].
  apply bind_Returned_inv in H as (op & w2 & Hp & H).
  assert (frame w1 w2) as F1.
  { destruct path; [unfold ret in Hp; simplify_eq; apply frame_refl|].
    by eapply get_keypath_frame. }
  destruct op as [p|].
  2:{ left. unfold ret in H. simplify_eq. destruct path; [unfold ret in Hp; simplify_eq|].
      done. }
  right.
  apply bind_Returned_inv in H as (sd & w3 & H3 & H). unfold reads in H3. simplify_eq.
  apply bind_Returned_inv in H as (u & w4 & H4 & H).
  apply mount_step_inv in H4 as [-> Hpres].
  fold (on_sd w3 p) in *. rewrite (on_sd_frame w1 w3 p F1) in *.
  rewrite (fr_sd_present _ _ F1) in Hpres.
  assert (frame w1 (mounted_for (on_sd w1 p) w3)) as F2.
  { eapply frame_trans; [exact F1|apply frame_mounted_for]. }
  apply bind_Returned_inv in H as (t & w5 & H5 & H). unfold reads in H5. simplify_eq.
  rewrite (path_value_frame _ _ p F2), (fileprefix_frame _ _ p F2) in H.
  fold (target_of w1 p filename) in H.
  apply bind_Returned_inv in H as (found & w6 & H6 & H).
  unfold platform.file_exists, reads in H6. simplify_eq.
  apply bind_Returned_inv in H as (go & w7 & H7 & H).
  assert (frame w1 w7) as F7.
  { eapply frame_trans; [exact F2|].
    match type of H7 with (if ?b then _ else _) _ = _ => destruct b end.
    - apply show_prompt_inv in H7 as (rest & _ & ->).
      eapply frame_trans; [apply frame_log|apply frame_with_answers].
    - unfold ret in H7. simplify_eq. apply frame_refl. }
  destruct go; simpl in H.
  2:{ left. unfold ret in H. simplify_eq. eauto. }
  right.
  apply bind_Returned_inv in H as (key & w8 & H8 & H). unfold reads in H8. simplify_eq.
  apply bind_Returned_inv in H as (u1 & w9 & H9 & H). unfold save_aead in H9. simplify_eq.
  apply bind_Returned_inv in H as (u2 & w10 & H10 & H).
  apply unmount_step_inv in H10 as ->.
  apply bind_Returned_inv in H as (pre & w11 & H11 & H). unfold reads in H11. simplify_eq.
  apply bind_Returned_inv in H as (lv & w12 & H12 & H). unfold ret in H. simplify_eq.
  assert (aead_encrypt (entropy w8) (enc_secret w8) "" (PyStr.encode phrase)
          = blob_of w1 phrase) as Eb.
  { unfold blob_of. by rewrite (fr_entropy _ _ F7), (fr_enc_secret _ _ F7). }
  rewrite Eb in H12. fold (written (target_of w1 p filename) (blob_of w1 phrase) w8) in H12.
  set (W := unmounted_for (on_sd w1 p)
              (written (target_of w1 p filename) (blob_of w1 phrase) w8)) in *.
  assert (secret W = secret w1 /\ flashpath W = flashpath w1 /\ sdpath W = sdpath w1
          /\ enc_secret W = enc_secret w1
          /\ files W = <[target_of w1 p filename := blob_of w1 phrase]> (files w8))
    as (Es & Ef & Esd & Ek & Efiles).
  { unfold W. destruct (on_sd w1 p); simpl; repeat split; apply F7. }
  rewrite (fileprefix_ext w1 W p Es) in H12.
  apply load_Returned_inv in H12 as [_ [(_ & [?|?] & _)|(_ & p' & f' & w2 & blob & r & text
    & Hp' & Hf' & F & _ & Hblob & Hdec & Htext & ->)]]; try discriminate.
  specialize (Hp' p eq_refl). specialize (Hf' _ eq_refl). subst p' f'.
  rewrite (path_value_ext w1 W p Ef) in *. fold (target_of w1 p filename) in *.
  rewrite Efiles, lookup_insert_eq in Hblob. simplify_eq.
  rewrite Ek in Hdec. rewrite (on_sd_ext w1 W p Ef Esd).
  split; [done|].
  exists p, w8, w2, r, text.
  split; [intros p0 ->; unfold ret in Hp; simplify_eq; done|].
  done.
Qed.

(** ** Saves, whatever their outcome *)

Lemma bind_inv {A B} (m : M A) (k : A -> M B) w out w' :
  bind m k w = (out, w') ->
  (exists a w1, m w = (Returned a, w1) /\ k a w1 = (out, w'))
  \/ (exists o, m w = (o, w') /\ passes o out).
Proof.
  unfold bind. destruct (m w) as [[a| | |] w1]; intros H.
  - left. eauto.
  - right. simplify_eq. by exists (Raised e).
  - right. simplify_eq. by exists Suspended.
  - right. simplify_eq. by exists OutOfFuel.
Qed.

Lemma mount_step_frame (b : bool) w (o : outcome unit) w' :
  (if b then
     present <- platform.is_sd_present ;;
     if present : bool then platform.mount_sdcard
     else raise (KeyStoreError "SD card is not present")
   else ret tt) w = (o, w') ->
  frame w w'.
Proof.
  destruct b; simpl.
  - unfold bind, platform.is_sd_present, reads, platform.mount_sdcard, raise.
    destruct (sd_present w); intros; simplify_eq; [|apply frame_refl].
    apply (frame_mounted_for true).
  - unfold ret. intros; simplify_eq. apply frame_refl.
Qed.

Lemma show_prompt_frame t m w (o : outcome bool) w' :
  show_prompt t m w = (o, w') -> frame w w'.
Proof.
  unfold show_prompt, bind. destruct (show _ w) as [o1 w1] eqn:Hs.
  apply show_frame in Hs.
  destruct o1 as [r| | |]; try (intros; simplify_eq; done).
  destruct r; unfold ret, suspend; intros; simplify_eq; done.
Qed.

(** A load of a named file under a named path never waits for the user. *)
Lemma load_explicit_outcome p f w out w' :
  load_mnemonic (Some p) (Some f) w = (out, w') ->
  (exists v, out = Returned v) \/ (exists e, out = Raised e).
Proof.
  unfold load_mnemonic. intros H.
  apply bind_inv in H as [(locked & w0 & H0 & H)|(o & H0 & Ho)];
    unfold reads in H0; simplify_eq; try (destruct Ho).
  destruct (is_locked w0); [unfold raise in H; simplify_eq; eauto|].
  apply bind_inv in H as [(op & w1 & H1 & H)|(o & H1 & Ho)];
    unfold ret in H1; simplify_eq; try (destruct Ho).
  apply bind_inv in H as [(sd & w2 & H2 & H)|(o & H2 & Ho)];
    unfold reads in H2; simplify_eq; try (destruct Ho).
  apply bind_inv in H as [(u & w3 & H3 & H)|(o & H3 & Ho)].
  2:{ match type of H3 with (if ?b then _ else _) _ = _ => destruct b end; simpl in H3.
      - unfold bind, platform.is_sd_present, reads, platform.mount_sdcard, raise in H3.
        destruct (sd_present _); simplify_eq; simpl in Ho; [destruct Ho|eauto].
      - unfold ret in H3. simplify_eq. destruct Ho. }
  apply bind_inv in H as [(ofile & w4 & H4 & H)|(o & H4 & Ho)];
    unfold ret in H4; simplify_eq; try (destruct Ho).
  apply bind_inv in H as [(u1 & w5 & H5 & H)|(o & H5 & Ho)];
    unfold print, emit in H5; simplify_eq; try (destruct Ho).
  apply bind_inv in H as [(t & w6 & H6 & H)|(o & H6 & Ho)];
    unfold reads in H6; simplify_eq; try (destruct Ho).
  apply bind_inv in H as [(found & w7 & H7 & H)|(o & H7 & Ho)];
    unfold platform.file_exists, reads in H7; simplify_eq; try (destruct Ho).
  match type of H with (if negb ?b then _ else _) _ = _ => destruct b end; simpl in H;
    [|unfold raise in H; simplify_eq; eauto].
  apply bind_inv in H as [(key & w8 & H8 & H)|(o & H8 & Ho)];
    unfold reads in H8; simplify_eq; try (destruct Ho).
  apply bind_inv in H as [(r & w9 & H9 & H)|(o & H9 & Ho)].
  2:{ unfold load_aead in H9. destruct (files _ !! _); [destruct (aead_decrypt _ _)|];
      simplify_eq; simpl in Ho; eauto; destruct Ho. }
  apply bind_inv in H as [(u2 & w10 & H10 & H)|(o & H10 & Ho)].
  2:{ match type of H10 with (if ?b then _ else _) _ = _ => destruct b end;
      unfold platform.unmount_sdcard, ret in H10; simplify_eq; destruct Ho. }
  apply bind_inv in H as [(text & w12 & H12 & H)|(o & H12 & Ho)].
  2:{ destruct (PyStr.decode _); unfold ret, raise in H12; simplify_eq; simpl in Ho;
      [destruct Ho|eauto]. }
  apply bind_inv in H as [(u3 & w11 & H11 & H)|(o & H11 & Ho)].
  2:{ unfold set_mnemonic in H11. simplify_eq. destruct Ho. }
  unfold ret in H. simplify_eq. eauto.
Qed.

(** Either a save leaves the records alone, or it has written the sealed
    phrase and its outcome is that of the read-back. *)
Lemma save_inv filename path w out w' :
  save_mnemonic filename path w = (out, w') ->
  frame w w'
  \/ exists p phrase w1 lout,
       (forall p0, path = Some p0 -> p = p0) /\
       mnemonic w = Some phrase /\
       frame w w1 /\
       load_mnemonic (Some p) (Some (fileprefix w p ++ "." ++ filename))
         (unmounted_for (on_sd w p)
            (written (target_of w p filename) (blob_of w phrase) w1))
       = (lout, w') /\
       match lout with
       | Returned _ => out = Returned PyTrue
       | _ => passes lout out
       end.
Proof.
  unfold save_mnemonic. intros H.
  apply bind_inv in H as [(locked & w0 & H0 & H)|(o & H0 & Ho)];
    unfold reads in H0; simplify_eq; try (destruct Ho).
  destruct (is_locked w0) eqn:Hl; [unfold raise in H; simplify_eq; left; apply frame_refl|].
  apply bind_inv in H as [(ph & w1 & H1 & H)|(o & H1 & Ho)];
    unfold reads in H1; simplify_eq; try (destruct Ho).
  destruct (mnemonic w1) as [phrase|] eqn:Hm;
    [|unfold raise in H; simplify_eq; left; apply frame_refl].
  apply bind_inv in H as [(op & w2 & Hp & H)|(o & Hp & _)].
  2:{ left. destruct path; [unfold ret in Hp; simplify_eq; apply frame_refl|].
      by eapply get_keypath_frame. }
  assert (frame w1 w2) as F1.
  { destruct path; [unfold ret in Hp; simplify_eq; apply frame_refl|].
    by eapply get_keypath_frame. }
  destruct op as [p|]; [|unfold ret in H; simplify_eq; by left].
  apply bind_inv in H as [(sd & w3 & H3 & H)|(o & H3 & Ho)];
    unfold reads in H3; simplify_eq; try (destruct Ho).
  fold (on_sd w3 p) in *. rewrite (on_sd_frame w1 w3 p F1) in *.
  apply bind_inv in H as [(u & w4 & H4 & H)|(o & H4 & _)].
  2:{ left. eapply frame_trans; [exact F1|]. by eapply mount_step_frame. }
  assert (frame w1 w4) as F2.
  { eapply frame_trans; [exact F1|]. by eapply mount_step_frame. }
  apply bind_inv in H as [(t & w5 & H5 & H)|(o & H5 & Ho)];
    unfold reads in H5; simplify_eq; try (destruct Ho).
  rewrite (path_value_frame _ _ p F2), (fileprefix_frame _ _ p F2) in H.
  fold (target_of w1 p filename) in H.
  apply bind_inv in H as [(found & w6 & H6 & H)|(o & H6 & Ho)];
    unfold platform.file_exists, reads in H6; simplify_eq; try (destruct Ho).
  apply bind_inv in H as [(go & w7 & H7 & H)|(o & H7 & _)].
  2:{ left. eapply frame_trans; [exact F2|].
      match type of H7 with (if ?b then _ else _) _ = _ => destruct b end.
      - by eapply show_prompt_frame.
      - unfold ret in H7. simplify_eq. apply frame_refl. }
  assert (frame w1 w7) as F7.
  { eapply frame_trans; [exact F2|].
    match type of H7 with (if ?b then _ else _) _ = _ => destruct b end.
    - by eapply show_prompt_frame.
    - unfold ret in H7. simplify_eq. apply frame_refl. }
  destruct go; simpl in H; [|unfold ret in H; simplify_eq; by left].
  right.
  apply bind_inv in H as [(key & w8 & H8 & H)|(o & H8 & Ho)];
    unfold reads in H8; simplify_eq; try (destruct Ho).
  apply bind_inv in H as [(u1 & w9 & H9 & H)|(o & H9 & Ho)];
    unfold save_aead in H9; simplify_eq; try (destruct Ho).
  apply bind_inv in H as [(u2 & w10 & H10 & H)|(o & H10 & Ho)].
  2:{ destruct (on_sd w1 p); unfold platform.unmount_sdcard, ret in H10; simplify_eq;
      destruct Ho. }
  apply unmount_step_inv in H10 as ->.
  apply bind_inv in H as [(pre & w11 & H11 & H)|(o & H11 & Ho)];
    unfold reads in H11; simplify_eq; try (destruct Ho).
  assert (aead_encrypt (entropy w8) (enc_secret w8) "" (PyStr.encode phrase)
          = blob_of w1 phrase) as Eb.
  { unfold blob_of. by rewrite (fr_entropy _ _ F7), (fr_enc_secret _ _ F7). }
  rewrite Eb in H. fold (written (target_of w1 p filename) (blob_of w1 phrase) w8) in H.
  set (W := unmounted_for (on_sd w1 p)
              (written (target_of w1 p filename) (blob_of w1 phrase) w8)) in *.
  assert (secret W = secret w1) as Es.
  { unfold W. destruct (on_sd w1 p); simpl; apply F7. }
  rewrite (fileprefix_ext w1 W p Es) in H.
  apply bind_inv in H as [(lv & w12 & H12 & H)|(o & H12 & Ho)].
  - unfold ret in H. simplify_eq.
    exists p, phrase, w8, (Returned lv).
    split; [intros p0 ->; unfold ret in Hp; simplify_eq; done|]. done.
  - exists p, phrase, w8, o.
    split; [intros p0 ->; unfold ret in Hp; simplify_eq; done|].
    repeat (split; [done|]). by destruct o.
Qed.

(** ** Running the operations forward *)

Lemma bind_eval {A B} (m : M A) (k : A -> M B) w a w1 :
  m w = (Returned a, w1) -> bind m k w = k a w1.
Proof. unfold bind. by intros ->. Qed.

Ltac step E :=
  lazymatch goal with
  | |- bind ?m ?k ?w = _ =>
      let X := fresh "X" in
      pose proof (bind_eval m k w _ _ E) as X; rewrite X; clear X; cbv beta iota
  end.

Lemma bind_eval_raise {A B} (m : M A) (k : A -> M B) w e w1 :
  m w = (Raised e, w1) -> bind m k w = (Raised e, w1).
Proof. unfold bind. by intros ->. Qed.

Lemma mount_step_eval (b : bool) w :
  (b = true -> sd_present w = true) ->
  (if b then
     present <- platform.is_sd_present ;;
     if present : bool then platform.mount_sdcard
     else raise (KeyStoreError "SD card is not present")
   else ret tt) w = (Returned tt, mounted_for b w).
Proof.
  destruct b; simpl; [|done]. intros E.
  unfold bind, platform.is_sd_present, reads. by rewrite E.
Qed.

Lemma unmount_step_eval (b : bool) w :
  (if b then platform.unmount_sdcard else ret tt) w = (Returned tt, unmounted_for b w).
Proof. by destruct b. Qed.

Lemma save_explicit_eval filename p w phrase (go : bool) w7 :
  is_locked w = false ->
  mnemonic w = Some phrase ->
  (on_sd w p = true -> sd_present w = true) ->
  (found <- platform.file_exists (target_of w p filename) ;;
   if found : bool then
     show_prompt (nl ++ nl ++ "File already exists: " ++ filename ++ nl)
       "Would you like to overwrite this file?"
   else ret true) (mounted_for (on_sd w p) w) = (Returned go, w7) ->
  save_mnemonic filename (Some p) w =
    if go then
      (_ <- load_mnemonic (Some p) (Some (fileprefix w p ++ "." ++ filename)) ;;
       ret PyTrue)
        (unmounted_for (on_sd w p)
           (written (target_of w p filename) (blob_of w phrase) w7))
    else (Returned PyNone, w7).
Proof.
  intros Hl Hm Hsd Hgo. unfold save_mnemonic.
  step (eq_refl (reads is_locked w)). rewrite Hl. cbv iota.
  step (eq_refl (reads mnemonic w)). rewrite Hm. cbv iota.
  step (eq_refl (ret (Some p) w)).
  step (eq_refl (reads (fun self => path_eqb self p (Str (sdpath self))) w)).
  fold (on_sd w p).
  step (mount_step_eval (on_sd w p) w Hsd).
  set (w1 := mounted_for (on_sd w p) w) in *.
  assert (frame w w1) as F1 by apply frame_mounted_for.
  assert (reads (fun self => path_value self p ++ "/" ++ fileprefix self p ++ "." ++ filename) w1
          = (Returned (target_of w p filename), w1)) as Et.
  { unfold reads, target_of.
    by rewrite (path_value_frame _ _ p F1), (fileprefix_frame _ _ p F1). }
  step Et.
  apply bind_Returned_inv in Hgo as (found & w2 & Hfound & Hgo).
  step Hfound.
  unfold platform.file_exists, reads in Hfound. simplify_eq.
  step Hgo.
  assert (frame w w7) as F7.
  { eapply frame_trans; [exact F1|].
    match type of Hgo with (if ?b then _ else _) _ = _ => destruct b end.
    - by eapply show_prompt_frame.
    - unfold ret in Hgo. simplify_eq. apply frame_refl. }
  destruct go; simpl; [|done].
  step (eq_refl (reads enc_secret w7)).
  step (eq_refl (save_aead (target_of w p filename) (PyStr.encode phrase) (enc_secret w7) w7)).
  step (unmount_step_eval (on_sd w p)
          (written (target_of w p filename) (blob_of w7 phrase) w7)).
  assert (blob_of w7 phrase = blob_of w phrase) as ->.
  { unfold blob_of. by rewrite (fr_entropy _ _ F7), (fr_enc_secret _ _ F7). }
  set (W := unmounted_for (on_sd w p)
              (written (target_of w p filename) (blob_of w phrase) w7)).
  assert (secret W = secret w) as Es.
  { unfold W. destruct (on_sd w p); simpl; apply F7. }
  assert (reads (fun self => fileprefix self p) W = (Returned (fileprefix w p), W)) as Ep.
  { unfold reads. by rewrite (fileprefix_ext w W p Es). }
  step Ep.
  done.
Qed.

Lemma load_explicit_eval p f w blob :
  is_locked w = false ->
  (on_sd w p = true -> sd_present w = true) ->
  files w !! (path_value w p ++ "/" ++ f) = Some blob ->
  load_mnemonic (Some p) (Some f) w =
    let w1 := log (EvLoadAead (path_value w p ++ "/" ++ f))
                (log (EvPrint ("loading " ++ f)) (mounted_for (on_sd w p) w)) in
    match aead_decrypt (enc_secret w) blob with
    | Some r =>
        match PyStr.decode (snd r) with
        | Some text =>
            (Returned PyTrue,
             log (EvSetMnemonic text "")
               (with_mnemonic (Some text) "" (unmounted_for (on_sd w p) w1)))
        | None => (Raised (UnicodeError ""), unmounted_for (on_sd w p) w1)
        end
    | None => (Raised (CryptoError "authentication failed"), w1)
    end.
Proof.
  intros Hl Hsd Hblob. unfold load_mnemonic.
  step (eq_refl (reads is_locked w)). rewrite Hl. cbv iota.
  step (eq_refl (ret (Some p) w)).
  step (eq_refl (reads (fun self => path_eqb self p (Str (sdpath self))) w)).
  fold (on_sd w p).
  step (mount_step_eval (on_sd w p) w Hsd).
  assert (frame w (mounted_for (on_sd w p) w)) as F1 by apply frame_mounted_for.
  remember (mounted_for (on_sd w p) w) as w1 eqn:Ew1. clear Ew1.
  step (eq_refl (ret (Some f) w1)).
  step (eq_refl (print ("loading " ++ f) w1)).
  assert (frame w (log (EvPrint ("loading " ++ f)) w1)) as F2.
  { eapply frame_trans; [exact F1|apply frame_log]. }
  remember (log (EvPrint ("loading " ++ f)) w1) as w2 eqn:Ew2. clear Ew2.
  assert (reads (fun self => path_value self p ++ "/" ++ f) w2
          = (Returned (path_value w p ++ "/" ++ f), w2)) as Et.
  { unfold reads. by rewrite (path_value_frame _ _ p F2). }
  step Et.
  assert (platform.file_exists (path_value w p ++ "/" ++ f) w2 = (Returned true, w2)) as Ef.
  { unfold platform.file_exists, reads. rewrite (fr_files _ _ F2), Hblob.
    rewrite bool_decide_eq_true_2 by eauto. done. }
  step Ef. cbv beta iota delta [negb].
  step (eq_refl (reads enc_secret w2)).
  rewrite (fr_enc_secret _ _ F2).
  unfold bind at 1. unfold load_aead at 1. rewrite (fr_files _ _ F2), Hblob.
  destruct (aead_decrypt (enc_secret w) blob) as [r|]; [|done].
  step (unmount_step_eval (on_sd w p) (log (EvLoadAead (path_value w p ++ "/" ++ f)) w2)).
  by destruct (PyStr.decode (snd r)).
Qed.

(** ** The world after a successful save *)

Lemma trace_unmounted_for b w :
  trace (unmounted_for b w) = (trace w ++ if b then [EvUnmount] else [])%list.
Proof. destruct b; simpl; [done|by rewrite app_nil_r]. Qed.

Lemma files_unmounted_for b w : files (unmounted_for b w) = files w.
Proof. by destruct b. Qed.

Lemma loaded_fields b target text w2 :
  let w' := loaded b target text w2 in
  is_locked w' = is_locked w2 /\ mnemonic w' = Some text /\ password w' = ""
  /\ secret w' = secret w2 /\ enc_secret w' = enc_secret w2
  /\ flashpath w' = flashpath w2 /\ sdpath w' = sdpath w2
  /\ sd_present w' = sd_present w2 /\ files w' = files w2
  /\ entropy w' = entropy w2
  /\ (b = true -> sd_mounted w' = false)
  /\ trace w' = (trace w2 ++ [EvLoadAead target] ++ (if b then [EvUnmount] else [])
                 ++ [EvSetMnemonic text ""])%list.
Proof.
  destruct b; simpl; repeat split; try done; by rewrite <- ?app_assoc.
Qed.

Lemma save_success_inv filename path w w' :
  save_mnemonic filename path w = (Returned PyTrue, w') ->
  exists p phrase r text pre mid,
    (forall p0, path = Some p0 -> p = p0) /\
    is_locked w = false /\
    mnemonic w = Some phrase /\
    (on_sd w p = true -> sd_present w = true) /\
    aead_decrypt (enc_secret w) (blob_of w phrase) = Some r /\
    PyStr.decode (snd r) = Some text /\
    is_locked w' = false /\
    mnemonic w' = Some text /\
    password w' = "" /\
    secret w' = secret w /\ enc_secret w' = enc_secret w /\
    flashpath w' = flashpath w /\ sdpath w' = sdpath w /\
    sd_present w' = sd_present w /\
    files w' = <[target_of w p filename := blob_of w phrase]> (files w) /\
    (on_sd w p = true -> sd_mounted w' = false) /\
    trace w' = (trace w ++ pre
                ++ [EvSaveAead (target_of w p filename) (blob_of w phrase)] ++ mid
                ++ [EvLoadAead (target_of w p filename)]
                ++ (if on_sd w p then [EvUnmount] else [])
                ++ [EvSetMnemonic text ""])%list.
Proof.
  intros H. apply save_Returned_inv in H as (Hl & phrase & Hm & H).
  destruct H as [(? & _)|[(? & _)|(_ & p & w1 & w2 & r & text & Hp & F1 & Hsd & F2 & Hdec
    & Htext & ->)]]; try discriminate.
  fold (loaded (on_sd w p) (target_of w p filename) text w2).
  pose proof (loaded_fields (on_sd w p) (target_of w p filename) text w2)
    as (E1 & E2 & E3 & E4 & E5 & E6 & E7 & E8 & E9 & _ & E11 & E12).
  set (W := unmounted_for (on_sd w p)
              (written (target_of w p filename) (blob_of w phrase) w1)) in *.
  assert (is_locked W = is_locked w1 /\ secret W = secret w1
          /\ enc_secret W = enc_secret w1 /\ flashpath W = flashpath w1
          /\ sdpath W = sdpath w1 /\ sd_present W = sd_present w1
          /\ files W = <[target_of w p filename := blob_of w phrase]> (files w1)
          /\ trace W = (trace w1 ++ [EvSaveAead (target_of w p filename) (blob_of w phrase)]
                        ++ if on_sd w p then [EvUnmount] else [])%list)
    as (W1 & W2 & W3 & W4 & W5 & W6 & W7 & W8).
  { unfold W. destruct (on_sd w p); simpl; repeat split; try done.
    by rewrite <- app_assoc. }
  destruct (fr_trace _ _ F1) as [pre Epre], (fr_trace _ _ F2) as [mid Emid].
  exists p, phrase, r, text, pre, ((if on_sd w p then [EvUnmount] else []) ++ mid)%list.
  split; [done|]. split; [done|]. split; [done|]. split; [done|]. split; [done|].
  split; [done|].
  split; [by rewrite E1, (fr_locked _ _ F2), W1, (fr_locked _ _ F1)|].
  split; [done|]. split; [done|].
  split; [by rewrite E4, (fr_secret _ _ F2), W2, (fr_secret _ _ F1)|].
  split; [by rewrite E5, (fr_enc_secret _ _ F2), W3, (fr_enc_secret _ _ F1)|].
  split; [by rewrite E6, (fr_flashpath _ _ F2), W4, (fr_flashpath _ _ F1)|].
  split; [by rewrite E7, (fr_sdpath _ _ F2), W5, (fr_sdpath _ _ F1)|].
  split; [by rewrite E8, (fr_sd_present _ _ F2), W6, (fr_sd_present _ _ F1)|].
  split; [by rewrite E9, (fr_files _ _ F2), W7, (fr_files _ _ F1)|].
  split; [done|].
  rewrite E12, Emid, W8, Epre. by rewrite <- !app_assoc.
Qed.

(** ** Properties of the record operations *)

(** C3: [save_mnemonic] reports success only after it has written the
    sealed phrase and then read the same file back and opened it; a return
    that is not a success has written nothing; and when the blob it writes
    does not open, the save either stopped before writing or ends in a raised
    error, never in a success. *)
Theorem save_verified_by_readback filename path w out w' :
  save_mnemonic filename path w = (out, w') ->
  (out = Returned PyTrue ->
     exists p phrase r pre mid post,
       (forall p0, path = Some p0 -> p = p0) /\
       mnemonic w = Some phrase /\
       trace w' = (trace w ++ pre
                   ++ [EvSaveAead (target_of w p filename) (blob_of w phrase)] ++ mid
                   ++ [EvLoadAead (target_of w p filename)] ++ post)%list /\
       files w' !! target_of w p filename = Some (blob_of w phrase) /\
       aead_decrypt (enc_secret w) (blob_of w phrase) = Some r)
  /\ (forall v, out = Returned v -> v <> PyTrue ->
        files w' = files w /\ entropy w' = entropy w)
  /\ (forall phrase,
        mnemonic w = Some phrase ->
        aead_decrypt (enc_secret w) (blob_of w phrase) = None ->
        frame w w' \/ exists e, out = Raised e).
Proof.
  intros H. split; [|split].
  - intros ->. apply save_success_inv in H
      as (p & phrase & r & text & pre & mid & Hp & _ & Hm & _ & Hdec & _ & _ & _ & _ & _ & _
          & _ & _ & _ & Hfiles & _ & Htrace).
    exists p, phrase, r, pre, mid. eexists. split; [done|]. split; [done|].
    split; [exact Htrace|].
    split; [|done]. rewrite Hfiles. apply lookup_insert_eq.
  - intros v -> Hv. apply save_Returned_inv in H as (_ & phrase & _ & H).
    destruct H as [(_ & _ & F)|[(_ & F)|(? & _)]]; [| |done];
      split; apply F.
  - intros phrase Hm Hdec. apply save_inv in H as [F|H]; [by left|right].
    destruct H as (p & phrase' & w1 & lout & _ & Hm' & F1 & Hload & Hout).
    rewrite Hm in Hm'. simplify_eq.
    destruct (load_explicit_outcome _ _ _ _ _ Hload) as [[v ->]|[e ->]].
    + exfalso. apply load_Returned_inv in Hload as [_ [(_ & [?|?] & _)|(_ & H)]];
        try discriminate.
      destruct H as (p' & f' & w2 & blob & r & text & Hp' & Hf' & _ & _ & Hblob & Hdec' & _).
      specialize (Hp' p eq_refl). specialize (Hf' _ eq_refl). subst p' f'.
      set (W := unmounted_for (on_sd w p)
                  (written (target_of w p filename) (blob_of w phrase') w1)) in *.
      assert (flashpath W = flashpath w /\ enc_secret W = enc_secret w
              /\ files W = <[target_of w p filename := blob_of w phrase']> (files w1))
        as (Ef & Ek & Efiles).
      { unfold W. destruct (on_sd w p); simpl; repeat split; apply F1. }
      rewrite (path_value_ext w W p Ef) in Hblob. fold (target_of w p filename) in Hblob.
      rewrite Efiles, lookup_insert_eq in Hblob. simplify_eq.
      rewrite Ek in Hdec'. congruence.
    + simpl in Hout. eauto.
Qed.

Lemma trace_mounted_for b w :
  trace (mounted_for b w) = (trace w ++ if b then [EvMount] else [])%list.
Proof. destruct b; simpl; [done|by rewrite app_nil_r]. Qed.

(** A load from a named file whose content opens and decodes. *)
Lemma load_explicit_success p f w blob r text :
  is_locked w = false ->
  (on_sd w p = true -> sd_present w = true) ->
  files w !! (path_value w p ++ "/" ++ f) = Some blob ->
  aead_decrypt (enc_secret w) blob = Some r ->
  PyStr.decode (snd r) = Some text ->
  load_mnemonic (Some p) (Some f) w
  = (Returned PyTrue,
     loaded (on_sd w p) (path_value w p ++ "/" ++ f) text
       (log (EvPrint ("loading " ++ f)) (mounted_for (on_sd w p) w))).
Proof.
  intros Hl Hsd Hblob Hdec Htext.
  rewrite (load_explicit_eval p f w blob Hl Hsd Hblob). cbv zeta.
  by rewrite Hdec, Htext.
Qed.

Lemma with_mnemonic_same w : with_mnemonic (mnemonic w) (password w) w = w.
Proof. by destruct w. Qed.

(** C4: when the cipher opens what it sealed, the record that a successful
    save has written loads back to exactly the saved phrase.  The load of
    that record succeeds right after the save, and also once the session
    phrase and password have been replaced by anything or dropped: it reads
    the record, and ends by setting the saved phrase, with the empty
    password, as the session. *)
Theorem load_after_save_roundtrip filename path w w1 :
  (forall n k pt, aead_decrypt k (aead_encrypt n k "" pt) = Some ("", pt)) ->
  save_mnemonic filename path w = (Returned PyTrue, w1) ->
  exists p phrase,
    (forall p0, path = Some p0 -> p = p0) /\
    mnemonic w = Some phrase /\
    files w1 !! target_of w p filename
      = Some (aead_encrypt (entropy w) (enc_secret w) "" (PyStr.encode phrase)) /\
    (exists w2,
       load_mnemonic (Some p) (Some (fileprefix w p ++ "." ++ filename)) w1
         = (Returned PyTrue, w2) /\
       mnemonic w2 = Some phrase) /\
    (forall session pw, exists w2,
       load_mnemonic (Some p) (Some (fileprefix w p ++ "." ++ filename))
         (with_mnemonic session pw w1) = (Returned PyTrue, w2) /\
       mnemonic w2 = Some phrase /\
       password w2 = "" /\
       trace w2 = (trace w1 ++ (if on_sd w p then [EvMount] else [])
                   ++ [EvPrint ("loading " ++ fileprefix w p ++ "." ++ filename);
                       EvLoadAead (target_of w p filename)]
                   ++ (if on_sd w p then [EvUnmount] else [])
                   ++ [EvSetMnemonic phrase ""])%list).
Proof.
  intros Hrt H. apply save_success_inv in H
    as (p & phrase & r & text & pre & mid & Hp & _ & Hm & Hsd & Hdec & Htext & Hl' & _ & _ & _
        & Ek & Ef & Esd & Epres & Hfiles & _ & _).
  unfold blob_of in Hdec. rewrite Hrt in Hdec. simplify_eq. simpl in Htext.
  pose proof (decode_Some _ _ Htext) as Et. unfold PyStr.encode in Et, Htext. subst text.
  assert (forall session pw, exists w2,
            load_mnemonic (Some p) (Some (fileprefix w p ++ "." ++ filename))
              (with_mnemonic session pw w1) = (Returned PyTrue, w2) /\
            mnemonic w2 = Some phrase /\
            password w2 = "" /\
            trace w2 = (trace w1 ++ (if on_sd w p then [EvMount] else [])
                        ++ [EvPrint ("loading " ++ fileprefix w p ++ "." ++ filename);
                            EvLoadAead (target_of w p filename)]
                        ++ (if on_sd w p then [EvUnmount] else [])
                        ++ [EvSetMnemonic phrase ""])%list) as Hany.
  { intros session pw. set (W := with_mnemonic session pw w1).
    assert (path_value W p = path_value w p) as Epv by (apply path_value_ext; exact Ef).
    assert (on_sd W p = on_sd w p) as Eon by (apply on_sd_ext; [exact Ef|exact Esd]).
    assert (files W !! (path_value W p ++ "/" ++ fileprefix w p ++ "." ++ filename)
            = Some (blob_of w phrase)) as Hblob.
    { rewrite Epv. fold (target_of w p filename). change (files W) with (files w1).
      rewrite Hfiles. apply lookup_insert_eq. }
    assert (on_sd W p = true -> sd_present W = true) as Hsd'.
    { rewrite Eon. change (sd_present W) with (sd_present w1). rewrite Epres. exact Hsd. }
    assert (aead_decrypt (enc_secret W) (blob_of w phrase) = Some ("", PyStr.encode phrase))
      as Hd.
    { change (enc_secret W) with (enc_secret w1). rewrite Ek. apply Hrt. }
    eexists. split; [exact (load_explicit_success p _ W _ _ phrase Hl' Hsd' Hblob Hd Htext)|].
    rewrite Epv, Eon. fold (target_of w p filename).
    pose proof (loaded_fields (on_sd w p) (target_of w p filename) phrase
                  (log (EvPrint ("loading " ++ fileprefix w p ++ "." ++ filename))
                     (mounted_for (on_sd w p) W)))
      as (_ & E2 & E3 & _ & _ & _ & _ & _ & _ & _ & _ & E12).
    split; [exact E2|]. split; [exact E3|].
    rewrite E12. simpl trace at 1. rewrite trace_mounted_for.
    change (trace W) with (trace w1). by rewrite <- !app_assoc. }
  exists p, phrase. split; [done|]. split; [done|].
  split; [rewrite Hfiles; apply lookup_insert_eq|].
  split; [|exact Hany].
  destruct (Hany (mnemonic w1) (password w1)) as (w2 & Hload & Hm2 & _).
  rewrite with_mnemonic_same in Hload. eauto.
Qed.

(** The overwrite question, asked because the target exists. *)
Lemma overwrite_decision filename p w old (yes : bool) rest :
  files w !! target_of w p filename = Some old ->
  answers w = Answer yes :: rest ->
  (found <- platform.file_exists (target_of w p filename) ;;
   if found : bool then
     show_prompt (nl ++ nl ++ "File already exists: " ++ filename ++ nl)
       "Would you like to overwrite this file?"
   else ret true) (mounted_for (on_sd w p) w)
  = (Returned yes,
     with_answers rest
       (log (EvShow (overwrite_prompt filename)) (mounted_for (on_sd w p) w))).
Proof.
  intros Hold Hans.
  assert (frame w (mounted_for (on_sd w p) w)) as F1 by apply frame_mounted_for.
  assert (platform.file_exists (target_of w p filename) (mounted_for (on_sd w p) w)
          = (Returned true, mounted_for (on_sd w p) w)) as Ef.
  { unfold platform.file_exists, reads. rewrite (fr_files _ _ F1), Hold.
    rewrite bool_decide_eq_true_2 by eauto. done. }
  step Ef. unfold show_prompt, bind, show.
  assert (answers (mounted_for (on_sd w p) w) = Answer yes :: rest) as ->.
  { by destruct (on_sd w p). }
  done.
Qed.

(** A declined overwrite on the SD card returns with the card mounted. *)
Lemma save_declined_stays_mounted filename p w phrase old rest :
  is_locked w = false ->
  mnemonic w = Some phrase ->
  on_sd w p = true ->
  sd_present w = true ->
  files w !! target_of w p filename = Some old ->
  answers w = Answer false :: rest ->
  exists w',
    save_mnemonic filename (Some p) w = (Returned PyNone, w')
    /\ sd_mounted w' = true.
Proof.
  intros Hl Hm Hsd Hpres Hold Hans.
  rewrite (save_explicit_eval filename p w phrase false _ Hl Hm (fun _ => Hpres)
             (overwrite_decision filename p w old false rest Hold Hans)).
  eexists. split; [reflexivity|]. by rewrite Hsd.
Qed.

(** C7: when the target record exists, a declined overwrite prompt makes
    [save_mnemonic] return [None] with every file as it was, and a confirmed
    prompt leaves the newly sealed phrase in the target file. *)
Theorem overwrite_guard filename p w phrase old (yes : bool) rest out w' :
  is_locked w = false ->
  mnemonic w = Some phrase ->
  (on_sd w p = true -> sd_present w = true) ->
  files w !! target_of w p filename = Some old ->
  answers w = Answer yes :: rest ->
  save_mnemonic filename (Some p) w = (out, w') ->
  if yes then files w' !! target_of w p filename = Some (blob_of w phrase)
  else out = Returned PyNone /\ files w' = files w.
Proof.
  intros Hl Hm Hsd Hold Hans H.
  set (w7 := with_answers rest
               (log (EvShow (overwrite_prompt filename)) (mounted_for (on_sd w p) w))).
  assert (frame w w7) as F7.
  { eapply frame_trans; [apply frame_mounted_for|].
    eapply frame_trans; [apply frame_log|apply frame_with_answers]. }
  pose proof (overwrite_decision filename p w old yes rest Hold Hans) as Hgo.
  fold w7 in Hgo.
  rewrite (save_explicit_eval filename p w phrase yes w7 Hl Hm Hsd Hgo) in H.
  destruct yes.
  - set (W := unmounted_for (on_sd w p)
                (written (target_of w p filename) (blob_of w phrase) w7)) in *.
    assert (is_locked W = false /\ flashpath W = flashpath w /\ sdpath W = sdpath w
            /\ sd_present W = sd_present w
            /\ files W = <[target_of w p filename := blob_of w phrase]> (files w7))
      as (Wl & Wf & Wsd & Wp & Wfiles).
    { unfold W, w7. destruct (on_sd w p); simpl; repeat split; done. }
    assert (files W !! (path_value W p ++ "/" ++ fileprefix w p ++ "." ++ filename)
            = Some (blob_of w phrase)) as Hblob.
    { rewrite (path_value_ext w W p Wf). fold (target_of w p filename).
      rewrite Wfiles. apply lookup_insert_eq. }
    assert (on_sd W p = true -> sd_present W = true) as Hsd'.
    { rewrite (on_sd_ext w W p Wf Wsd), Wp. exact Hsd. }
    unfold bind in H. rewrite (load_explicit_eval p _ W _ Wl Hsd' Hblob) in H.
    cbv zeta in H.
    assert (files w' = files W) as ->.
    { destruct (aead_decrypt _ _); [destruct (PyStr.decode _)|];
        unfold ret in H; simplify_eq; simpl;
        rewrite ?files_unmounted_for; simpl; by destruct (on_sd W p). }
    rewrite Wfiles. apply lookup_insert_eq.
  - simplify_eq. split; [done|]. apply F7.
Qed.

(** C10: a successful [load_mnemonic] ends with [set_mnemonic] called on
    the decoded content of the opened file and the empty password, which
    become the session phrase and password; a successful [save_mnemonic]
    ends the same way, through its read-back, so it leaves the password
    empty. *)
Theorem successful_load_resets_session w w' :
  (forall path file,
     load_mnemonic path file w = (Returned PyTrue, w') ->
     exists p f blob r text,
       files w !! (path_value w p ++ "/" ++ f) = Some blob /\
       aead_decrypt (enc_secret w) blob = Some r /\
       PyStr.decode (snd r) = Some text /\
       last (trace w') = Some (EvSetMnemonic text "") /\
       mnemonic w' = Some text /\
       password w' = "")
  /\ (forall filename path,
        save_mnemonic filename path w = (Returned PyTrue, w') ->
        exists p blob r text,
          files w' !! target_of w p filename = Some blob /\
          aead_decrypt (enc_secret w) blob = Some r /\
          PyStr.decode (snd r) = Some text /\
          last (trace w') = Some (EvSetMnemonic text "") /\
          mnemonic w' = Some text /\
          password w' = "").
Proof.
  split.
  - intros path file H.
    apply load_Returned_inv in H as [_ [(? & _)|(_ & H)]]; [discriminate|].
    destruct H as (p & f & w1 & blob & r & text & _ & _ & _ & _ & Hblob & Hdec & Htext & ->).
    exists p, f, blob, r, text. split; [done|]. split; [done|]. split; [done|].
    fold (loaded (on_sd w p) (path_value w p ++ "/" ++ f) text w1).
    pose proof (loaded_fields (on_sd w p) (path_value w p ++ "/" ++ f) text w1)
      as (_ & E2 & E3 & _ & _ & _ & _ & _ & _ & _ & _ & E12).
    split; [|done]. rewrite E12, !app_assoc. apply last_snoc.
  - intros filename path H. apply save_success_inv in H
      as (p & phrase & r & text & pre & mid & _ & _ & _ & _ & Hdec & Htext & _ & Hm' & Hpw & _
          & _ & _ & _ & _ & Hfiles & _ & Htrace).
    exists p, (blob_of w phrase), r, text.
    split; [rewrite Hfiles; apply lookup_insert_eq|].
    split; [done|]. split; [done|]. split; [|done].
    rewrite Htrace, !app_assoc. apply last_snoc.
Qed.

(** A save that picks the media in the menu continues as a save to the
    picked path, so the statements about explicit paths cover the menu. *)
Lemma save_via_menu filename w phrase p w1 :
  is_locked w = false ->
  mnemonic w = Some phrase ->
  get_keypath "Where to save?" false (Some "Select media") w = (Returned (Some p), w1) ->
  save_mnemonic filename None w = save_mnemonic filename (Some p) w1.
Proof.
  intros Hl Hm Hk. pose proof (get_keypath_frame _ _ _ _ _ _ Hk) as F.
  unfold save_mnemonic.
  step (eq_refl (reads is_locked w)). rewrite Hl. cbv iota.
  step (eq_refl (reads mnemonic w)). rewrite Hm. cbv iota.
  step Hk.
  symmetry.
  step (eq_refl (reads is_locked w1)). rewrite (fr_locked _ _ F), Hl. cbv iota.
  step (eq_refl (reads mnemonic w1)). rewrite (fr_mnemonic _ _ F), Hm. cbv iota.
  step (eq_refl (ret (Some p) w1)).
  done.
Qed.

(** [save_mnemonic] and [load_mnemonic] on a locked keystore raise at once
    and leave the world as it was. *)
Lemma save_mnemonic_locked filename path w :
  is_locked w = true ->
  save_mnemonic filename path w = (Raised (KeyStoreError "Keystore is locked"), w).
Proof. intros Hl. unfold save_mnemonic, bind, reads. by rewrite Hl. Qed.

Lemma load_mnemonic_locked path file w :
  is_locked w = true ->
  load_mnemonic path file w = (Raised (KeyStoreError "Keystore is locked"), w).
Proof. intros Hl. unfold load_mnemonic, bind, reads. by rewrite Hl. Qed.

(** ** The file prefix *)

Lemma fileprefix_flash self : fileprefix self Flashpath = "reckless".
Proof. reflexivity. Qed.

(** The prefix is a function of the secret once the path is fixed. *)
Lemma fileprefix_deterministic w w' p :
  secret w = secret w' -> fileprefix w p = fileprefix w' p.
Proof. intros E. by apply fileprefix_ext. Qed.

(** C6: the prefix depends on which object the path is, not only on its
    value: a string equal to the flash path that is not the object held by
    [self.flashpath] gets the SD prefix instead of ["reckless"]. *)
Theorem fileprefix_by_identity self :
  path_value self (Str (flashpath self)) = path_value self Flashpath
  /\ fileprefix self Flashpath = "reckless"
  /\ fileprefix self (Str (flashpath self))
     = "specterdiy" ++ PyStr.hexlify (PyStr.take 4 (tagged_hash "sdid" (secret self)))
  /\ fileprefix self (Str (flashpath self)) <> fileprefix self Flashpath.
Proof.
  repeat split; try apply fileprefix_other.
  rewrite fileprefix_other. discriminate.
Qed.

(** ** The storage menu *)

(** C9: an empty name typed for Save is answered by the error alert and no
    file is touched, but then [storage_menu] returns: the menu is left
    without Back being pressed, whatever answers were still to come. *)
Theorem storage_menu_leaves_on_empty_name fuel w rest :
  let w0 := with_answers (Tap 1 :: Typed (Some "") :: Dismiss :: rest) w in
  exists w',
    storage_menu (S fuel) w0 = (Returned tt, w')
    /\ files w' = files w
    /\ answers w' = rest
    /\ last (trace w')
       = Some (EvShow (Alert "Error!"
                         ("Please provide a valid name!" ++ nl ++ nl
                          ++ "Your file has NOT been saved.") "OK")).
Proof.
  simpl. eexists. split; [reflexivity|]. simpl. repeat split.
  by rewrite last_snoc.
Qed.

(** A cancelled name entry leaves the menu as well. *)
Lemma storage_menu_leaves_on_cancelled_name fuel w rest :
  exists w',
    storage_menu (S fuel) (with_answers (Tap 1 :: Typed None :: rest) w) = (Returned tt, w')
    /\ answers w' = rest.
Proof. simpl. eexists. split; reflexivity. Qed.

(** Back leaves the menu. *)
Lemma storage_menu_back fuel w rest :
  exists w',
    storage_menu (S fuel) (with_answers (Back :: rest) w) = (Returned tt, w')
    /\ answers w' = rest.
Proof. simpl. eexists. split; reflexivity. Qed.

(** ** Deleting a record *)

(** Once a file is picked and found, [delete_mnemonic] returns [True]
    whether [os.remove] removed it or raised: the [return True] of the
    [finally] suite discards the [KeyStoreError] in flight. *)
Lemma delete_mnemonic_picked p w file w2 blob :
  (on_sd w p = true -> sd_present w = true) ->
  select_file p (fileprefix w p) (mounted_for (on_sd w p) w) = (Returned (Some file), w2) ->
  files w !! (path_value w p ++ "/" ++ file) = Some blob ->
  delete_mnemonic (Some p) w =
    let target := path_value w p ++ "/" ++ file in
    if bool_decide (target ∈ undeletable w) then
      (Returned PyTrue, unmounted_for (on_sd w p) (log (EvPrint "EIO") w2))
    else
      (Returned PyTrue,
       unmounted_for (on_sd w p)
         (log (EvRemove target) (with_files (delete target (files w2)) w2))).
Proof.
  intros Hsd Hsel Hblob. unfold delete_mnemonic.
  step (eq_refl (ret (Some p) w)).
  step (eq_refl (reads (fun self => path_eqb self p (Str (sdpath self))) w)).
  fold (on_sd w p).
  step (mount_step_eval (on_sd w p) w Hsd).
  assert (frame w (mounted_for (on_sd w p) w)) as F1 by apply frame_mounted_for.
  assert (reads (fun self => fileprefix self p) (mounted_for (on_sd w p) w)
          = (Returned (fileprefix w p), mounted_for (on_sd w p) w)) as Ep.
  { unfold reads. by rewrite (fileprefix_frame _ _ p F1). }
  step Ep. step Hsel.
  assert (frame w w2) as F2.
  { eapply frame_trans; [exact F1|]. by eapply select_file_frame. }
  assert (reads (fun self => path_value self p ++ "/" ++ file) w2
          = (Returned (path_value w p ++ "/" ++ file), w2)) as Et.
  { unfold reads. by rewrite (path_value_frame _ _ p F2). }
  step Et.
  assert (reads (fun self => path_value self p) w2 = (Returned (path_value w p), w2)) as Ed.
  { unfold reads. by rewrite (path_value_frame _ _ p F2). }
  step Ed.
  assert (platform.file_exists (path_value w p ++ "/" ++ file) w2 = (Returned true, w2)) as Ef.
  { unfold platform.file_exists, reads. rewrite (fr_files _ _ F2), Hblob.
    rewrite bool_decide_eq_true_2 by eauto. done. }
  step Ef. cbv beta iota delta [negb]. cbv zeta.
  unfold bind at 1, try_finally, try_except, bind at 1, os.remove.
  rewrite (fr_files _ _ F2), Hblob, (fr_undeletable _ _ F2).
  destruct (bool_decide _); simpl; by destruct (on_sd w p).
Qed.

(** ** Listing the records of a directory *)

#[local] Instance entry_le_total : Total entry_le.
Proof.
  intros [a1 a2] [b1 b2]. unfold entry_le, entry_leb. simpl.
  rewrite (String.compare_antisym b1 a1).
  destruct (String.compare a1 b1) eqn:E; simpl; auto.
  apply String.leb_total.
Qed.




(** What [select_file] does with the listing of an existing directory. *)
Lemma select_file_offers p prefix w :
  path_value w p ∈ dirs w ->
  exists names,
    os.ilistdir (path_value w p) w = (Returned names, w)
    /\ select_file p prefix w =
       match offered names prefix with
       | [] => (Raised (KeyStoreError (nl ++ nl ++ "No matching files found")), w)
       | entries =>
           show_menu (Some "Select a file") None
             (map (fun file : string * string => (Some (fst file), snd file, true)) entries)
             None w
       end.
Proof.
  intros Hd. unfold os.ilistdir. rewrite bool_decide_eq_true_2 by done.
  eexists. split; [reflexivity|].
  unfold select_file, bind, os.ilistdir at 1. rewrite bool_decide_eq_true_2 by done.
  unfold offered.
  match goal with |- context [omap ?f ?l] => generalize (omap f l) end.
  intros l. destruct l as [|a l]; [done|].
  change (Nat.eqb (List.length (a :: l)) 0) with false. cbv iota.
  assert (merge_sort entry_le (a :: l) <> []) as Hne.
  { intros E. pose proof (merge_sort_Permutation entry_le (a :: l)) as P.
    rewrite E in P. by apply Permutation_nil_cons in P. }
  destruct (merge_sort entry_le (a :: l)) as [|b l'] eqn:E; [done|].
  unfold ret. by destruct (show_menu _ _ _ _ _) as [[| | |] ?].
Qed.

Lemma string_app_cons c s t : String c s ++ t = String c (s ++ t).
Proof. reflexivity. Qed.

Lemma prefix_app p rest : String.prefix p (p ++ rest) = true.
Proof.
  induction p as [|c p IH]; [by destruct rest|].
  rewrite string_app_cons. simpl. destruct (ascii_dec c c); [exact IH|done].
Qed.

Lemma remove_from_skip p s rest :
  PyStr.remove_from p (String.length s) (s ++ rest) = PyStr.remove_from p 0 rest.
Proof.
  induction s as [|c s IH]; [done|].
  rewrite string_app_cons. simpl. exact IH.
Qed.

Lemma remove_all_prefix p rest :
  p <> "" -> PyStr.remove_all (p ++ rest) p = PyStr.remove_all rest p.
Proof.
  destruct p as [|c p]; [done|]. intros _. unfold PyStr.remove_all.
  pose proof (prefix_app (String c p) rest) as Hp.
  rewrite string_app_cons in *.
  cbn [PyStr.remove_from]. rewrite Hp.
  cbn [String.length Nat.pred]. apply remove_from_skip.
Qed.

(** When the prefix does not occur again in the rest of the name, the label
    is the rest without its first character, or ["Default"]. *)
Lemma displayname_single prefix rest :
  prefix <> "" ->
  PyStr.remove_all rest prefix = rest ->
  displayname (prefix ++ rest) prefix
  = if String.eqb rest "" then "Default" else PyStr.tail rest.
Proof.
  intros Hp Hr. unfold displayname. by rewrite remove_all_prefix, Hr.
Qed.

(** ** Choosing the media *)

Lemma show_menu_Returned_inv {A} t n (bs : list (button A)) last w r w' :
  show_menu t n bs last w = (Returned r, w') ->
  r = last \/ exists i v txt, bs !! i = Some (Some v, txt, true) /\ r = Some v.
Proof.
  unfold show_menu. intros H.
  apply bind_Returned_inv in H as (a & w1 & _ & H).
  destruct a; unfold ret, suspend in H; simplify_eq; [|by left].
  destruct (bs !! i) as [[[[v|] txt] [|]]|] eqn:E; simplify_eq.
  right. eauto.
Qed.

(** X1: whatever the user answers, [get_keypath] touches no file and no
    session data, and when a card is present it ends with the card
    unmounted; without a card the mount state stays as it was. *)
Theorem get_keypath_brackets_mount title only_if_exist note w out w' :
  get_keypath title only_if_exist note w = (out, w') ->
  frame w w' /\ sd_mounted w' = (if sd_present w then false else sd_mounted w).
Proof.
  intros H. split; [by eapply get_keypath_frame|].
  revert H.
  unfold get_keypath, bind, platform.file_exists, platform.is_sd_present, reads,
    platform.mount_sdcard, platform.unmount_sdcard, ret.
  assert (forall (A : Type) t n (bs : list (button A)) last w0 o w1,
            show_menu t n bs last w0 = (o, w1) -> sd_mounted w1 = sd_mounted w0) as Hm.
  { intros A t n bs last w0 o w1. unfold show_menu, bind, show.
    destruct (answers w0) as [|r rest]; [intros; simplify_eq; done|].
    destruct r; unfold ret, suspend; try (intros; simplify_eq; done).
    destruct (bs !! i) as [[[[v|] txt] [|]]|]; intros; simplify_eq; done. }
  destruct (sd_present w) eqn:Hp.
  - destruct (show_menu _ _ _ _ _) as [o1 w1] eqn:Hs. apply Hm in Hs.
    intros H. assert (w' = w1) as -> by (destruct o1; simplify_eq; done). done.
  - destruct (show_menu _ _ _ _ _) as [o1 w1] eqn:Hs. apply Hm in Hs.
    intros H. assert (w' = w1) as -> by (destruct o1; simplify_eq; done). done.
Qed.

(** X2: [get_keypath] hands back nothing, the flash path object or the SD
    path, and never a disabled medium: the SD card only when it is present,
    and, when only media with a key are wanted, only a path that exists. *)
Theorem get_keypath_returns_enabled title only_if_exist note w r w' :
  get_keypath title only_if_exist note w = (Returned r, w') ->
  r = None
  \/ (r = Some Flashpath
      /\ (only_if_exist = true -> path_exists w (flashpath w) = true))
  \/ (r = Some (Str (sdpath w))
      /\ sd_present w = true
      /\ (only_if_exist = true -> path_exists w (sdpath w) = true)).
Proof.
  unfold get_keypath. intros H.
  apply bind_Returned_inv in H as (fe & w1 & H1 & H).
  unfold platform.file_exists, reads in H1. simplify_eq.
  apply bind_Returned_inv in H as (present & w2 & H2 & H).
  unfold platform.is_sd_present, reads in H2. simplify_eq.
  apply bind_Returned_inv in H as (enable_sd & w3 & H3 & H).
  assert (sdpath w3 = sdpath w2
          /\ (enable_sd = true ->
              sd_present w2 = true
              /\ (only_if_exist = true -> path_exists w2 (sdpath w2) = true)))
    as [Esd Hen].
  { destruct (sd_present w2) eqn:Hp.
    - unfold bind, platform.mount_sdcard, platform.file_exists, reads,
        platform.unmount_sdcard, ret in H3. simpl in H3. simplify_eq.
      split; [done|]. intros E. split; [done|]. intros ->. exact E.
    - unfold ret in H3. simplify_eq. done. }
  apply bind_Returned_inv in H as (sd & w4 & H4 & H). unfold reads in H4. simplify_eq.
  apply bind_Returned_inv in H as (res & w5 & H5 & H). unfold ret in H. simplify_eq.
  apply show_menu_Returned_inv in H5 as [->|(i & v & txt & Hi & ->)]; [by left|].
  right. destruct i as [|[|[|i]]]; simpl in Hi; simplify_eq.
  - left. split; [done|]. intros ->. done.
  - right. rewrite Esd. split; [done|]. by apply Hen.
Qed.

(** X3: [is_key_saved] answers whether the flash path exists or, with a
    card present, the SD path exists; it touches no file, and ends with the
    card unmounted when there is one (and the mount state untouched when
    there is none). *)
Theorem is_key_saved_spec w :
  exists w',
    is_key_saved w
    = (Returned (path_exists w (flashpath w)
                 || (sd_present w && path_exists w (sdpath w))), w')
    /\ frame w w'
    /\ sd_mounted w' = (if sd_present w then false else sd_mounted w).
Proof.
  unfold is_key_saved, bind, platform.file_exists, platform.is_sd_present, reads,
    platform.mount_sdcard, platform.unmount_sdcard, ret, path_exists.
  destruct (sd_present w) eqn:Hp; simpl.
  - eexists. split; [by rewrite orb_comm|]. split; [|done].
    eapply frame_trans; [apply frame_with_mounted|]. eapply frame_trans; [apply frame_log|].
    eapply frame_trans; [apply frame_with_mounted|]. apply frame_log.
  - eexists. split; [by rewrite orb_false_r|]. split; [apply frame_refl|done].
Qed.

(** ** Refusals *)

(** X4: on a locked keystore, or on one without a loaded phrase,
    [save_mnemonic] raises a [KeyStoreError] at once: nothing is shown,
    mounted or written. *)
Theorem save_refused_without_phrase filename path w :
  is_locked w = true \/ mnemonic w = None ->
  exists msg, save_mnemonic filename path w = (Raised (KeyStoreError msg), w).
Proof.
  intros H. unfold save_mnemonic, bind, reads.
  destruct (is_locked w) eqn:Hl; [eauto|].
  destruct H as [?|Hm]; [done|]. rewrite Hm. eauto.
Qed.

(** X5: with a path on the SD card and no card in the slot, save, load and
    delete raise [KeyStoreError "SD card is not present"] before mounting
    or showing anything. *)
Theorem sd_card_absent_refused filename file p w :
  on_sd w p = true ->
  sd_present w = false ->
  (is_locked w = false -> mnemonic w <> None ->
   save_mnemonic filename (Some p) w
   = (Raised (KeyStoreError "SD card is not present"), w))
  /\ (is_locked w = false ->
      load_mnemonic (Some p) file w
      = (Raised (KeyStoreError "SD card is not present"), w))
  /\ delete_mnemonic (Some p) w
     = (Raised (KeyStoreError "SD card is not present"), w).
Proof.
  intros Hsd Hp. unfold on_sd in Hsd.
  split; [|split].
  - intros Hl Hm. unfold save_mnemonic, bind, reads, ret, platform.is_sd_present, raise.
    rewrite Hl. destruct (mnemonic w); [|done]. simpl. by rewrite Hsd, Hp.
  - intros Hl. unfold load_mnemonic, bind, reads, ret, platform.is_sd_present, raise.
    rewrite Hl. simpl. by rewrite Hsd, Hp.
  - unfold delete_mnemonic, bind, reads, ret, platform.is_sd_present, raise.
    simpl. by rewrite Hsd, Hp.
Qed.

(** ** Loads, whatever their outcome *)

Lemma load_stopped_frame path file w out w' :
  load_mnemonic path file w = (out, w') ->
  (forall v, out <> Returned v) ->
  frame w w'.
Proof.
  unfold load_mnemonic. intros H Hout.
  apply bind_inv in H as [(locked & w0 & H0 & H)|(o & H0 & Ho)];
    unfold reads in H0; simplify_eq; try (destruct Ho).
  destruct (is_locked w0); [unfold raise in H; simplify_eq; apply frame_refl|].
  apply bind_inv in H as [(op & w1 & Hp & H)|(o & Hp & _)].
  2:{ destruct path; [unfold ret in Hp; simplify_eq; apply frame_refl|].
      by eapply get_keypath_frame. }
  assert (frame w0 w1) as F1.
  { destruct path; [unfold ret in Hp; simplify_eq; apply frame_refl|].
    by eapply get_keypath_frame. }
  destruct op as [p|]; [|unfold ret in H; simplify_eq; by destruct (Hout PyFalse)].
  apply bind_inv in H as [(sd & w2 & H2 & H)|(o & H2 & Ho)];
    unfold reads in H2; simplify_eq; try (destruct Ho).
  apply bind_inv in H as [(u & w3 & H3 & H)|(o & H3 & _)].
  2:{ eapply frame_trans; [exact F1|]. by eapply mount_step_frame. }
  assert (frame w0 w3) as F3.
  { eapply frame_trans; [exact F1|]. by eapply mount_step_frame. }
  apply bind_inv in H as [(ofile & w4 & H4 & H)|(o & H4 & _)].
  2:{ eapply frame_trans; [exact F3|].
      destruct file; [unfold ret in H4; simplify_eq; apply frame_refl|].
      apply bind_inv in H4 as [(? & ? & E & H4)|(? & E & Ho)];
        unfold reads in E; simplify_eq; [|destruct Ho].
      by eapply select_file_frame. }
  assert (frame w0 w4) as F4.
  { eapply frame_trans; [exact F3|].
    destruct file; [unfold ret in H4; simplify_eq; apply frame_refl|].
    apply bind_Returned_inv in H4 as (? & ? & E & H4). unfold reads in E. simplify_eq.
    by eapply select_file_frame. }
  destruct ofile as [f|]; [|unfold ret in H; simplify_eq; by destruct (Hout PyFalse)].
  apply bind_inv in H as [(u1 & w5 & H5 & H)|(o & H5 & Ho)];
    unfold print, emit in H5; simplify_eq; try (destruct Ho).
  assert (frame w0 (log (EvPrint ("loading " ++ f)) w4)) as F5.
  { eapply frame_trans; [exact F4|apply frame_log]. }
  apply bind_inv in H as [(t & w6 & H6 & H)|(o & H6 & Ho)];
    unfold reads in H6; simplify_eq; try (destruct Ho).
  apply bind_inv in H as [(found & w7 & H7 & H)|(o & H7 & Ho)];
    unfold platform.file_exists, reads in H7; simplify_eq; try (destruct Ho).
  match type of H with (if negb ?b then _ else _) _ = _ => destruct b end; simpl in H;
    [|unfold raise in H; simplify_eq; exact F5].
  apply bind_inv in H as [(key & w8 & H8 & H)|(o & H8 & Ho)];
    unfold reads in H8; simplify_eq; try (destruct Ho).
  apply bind_inv in H as [(r & w9 & H9 & H)|(o & H9 & _)].
  2:{ unfold load_aead in H9. destruct (files _ !! _); [destruct (aead_decrypt _ _)|];
      simplify_eq; try exact F5;
      (eapply frame_trans; [exact F5|apply frame_log]). }
  apply bind_inv in H as [(u2 & w10 & H10 & H)|(o & H10 & Ho)].
  2:{ match type of H10 with (if ?b then _ else _) _ = _ => destruct b end;
      unfold platform.unmount_sdcard, ret in H10; simplify_eq; destruct Ho. }
  apply bind_inv in H as [(text & w12 & H12 & H)|(o & H12 & Ho)].
  2:{ destruct (PyStr.decode _); unfold ret, raise in H12; simplify_eq; [destruct Ho|].
      apply unmount_step_inv in H10 as ->.
      unfold load_aead in H9.
      destruct (files _ !! _); [destruct (aead_decrypt _ _)|]; simplify_eq.
      eapply frame_trans; [exact F5|].
      eapply frame_trans; [apply frame_log|apply frame_unmounted_for]. }
  apply bind_inv in H as [(u3 & w11 & H11 & H)|(o & H11 & Ho)].
  2:{ unfold set_mnemonic in H11. simplify_eq. destruct Ho. }
  unfold ret in H. simplify_eq. by destruct (Hout PyTrue).
Qed.

Lemma load_keeps_files_and_session path file w out w' :
  load_mnemonic path file w = (out, w') ->
  files w' = files w
  /\ (out <> Returned PyTrue ->
      mnemonic w' = mnemonic w /\ password w' = password w).
Proof.
  intros H. destruct out as [v| | |].
  - apply load_Returned_inv in H as [_ [(-> & _ & F)|(-> & H)]].
    + split; [apply F|]. intros _. split; apply F.
    + destruct H as (p & f & w1 & blob & r & text & _ & _ & F & _ & _ & _ & _ & ->).
      split; [|done].
      fold (loaded (on_sd w p) (path_value w p ++ "/" ++ f) text w1).
      pose proof (loaded_fields (on_sd w p) (path_value w p ++ "/" ++ f) text w1)
        as (_ & _ & _ & _ & _ & _ & _ & _ & E9 & _).
      rewrite E9. apply F.
  - apply load_stopped_frame in H; [|done]. split; [apply H|]. intros _. split; apply H.
  - apply load_stopped_frame in H; [|done]. split; [apply H|]. intros _. split; apply H.
  - apply load_stopped_frame in H; [|done]. split; [apply H|]. intros _. split; apply H.
Qed.

(** X6: [load_mnemonic] fails closed.  It never changes a file, and unless
    it returns [True] it leaves the session phrase and password as they
    were, whether it raised, was cancelled or still waits for the user. *)
Theorem load_mnemonic_fails_closed path file w out w' :
  load_mnemonic path file w = (out, w') ->
  files w' = files w
  /\ (out <> Returned PyTrue ->
      mnemonic w' = mnemonic w /\ password w' = password w).
Proof. apply load_keeps_files_and_session. Qed.

(** X7: loading a named file that does not exist raises
    [KeyStoreError "Key is not saved"]; the file name has been printed and,
    on the SD card, the card has been mounted. *)
Theorem load_missing_file p f w :
  is_locked w = false ->
  (on_sd w p = true -> sd_present w = true) ->
  path_exists w (path_value w p ++ "/" ++ f) = false ->
  load_mnemonic (Some p) (Some f) w
  = (Raised (KeyStoreError "Key is not saved"),
     log (EvPrint ("loading " ++ f)) (mounted_for (on_sd w p) w)).
Proof.
  intros Hl Hsd Hex. unfold load_mnemonic.
  step (eq_refl (reads is_locked w)). rewrite Hl. cbv iota.
  step (eq_refl (ret (Some p) w)).
  step (eq_refl (reads (fun self => path_eqb self p (Str (sdpath self))) w)).
  fold (on_sd w p).
  step (mount_step_eval (on_sd w p) w Hsd).
  assert (frame w (mounted_for (on_sd w p) w)) as F1 by apply frame_mounted_for.
  remember (mounted_for (on_sd w p) w) as w1 eqn:Ew1. clear Ew1.
  step (eq_refl (ret (Some f) w1)).
  step (eq_refl (print ("loading " ++ f) w1)).
  assert (frame w (log (EvPrint ("loading " ++ f)) w1)) as F2.
  { eapply frame_trans; [exact F1|apply frame_log]. }
  remember (log (EvPrint ("loading " ++ f)) w1) as w2 eqn:Ew2. clear Ew2.
  assert (reads (fun self => path_value self p ++ "/" ++ f) w2
          = (Returned (path_value w p ++ "/" ++ f), w2)) as Et.
  { unfold reads. by rewrite (path_value_frame _ _ p F2). }
  step Et.
  assert (platform.file_exists (path_value w p ++ "/" ++ f) w2 = (Returned false, w2)) as Ef.
  { unfold platform.file_exists, reads. rewrite (fr_files _ _ F2), (fr_dirs _ _ F2).
    unfold path_exists in Hex. by rewrite Hex. }
  step Ef. done.
Qed.

(** X8: loading a named file that exists.  If its blob opens and the
    content decodes as UTF-8, the load returns [True], the decoded text
    becomes the session phrase with the empty password, and on the SD card
    the card is unmounted again.  If the blob opens but the content is not
    UTF-8, the load raises [UnicodeError] once the card is unmounted, and
    phrase and password stay.  If the blob does not open, the load raises
    and phrase and password stay.  No file changes in any of the three. *)
Theorem load_named_file p f w blob :
  is_locked w = false ->
  (on_sd w p = true -> sd_present w = true) ->
  files w !! (path_value w p ++ "/" ++ f) = Some blob ->
  exists w',
    files w' = files w /\
    match aead_decrypt (enc_secret w) blob with
    | Some r =>
        match PyStr.decode (snd r) with
        | Some text =>
            load_mnemonic (Some p) (Some f) w = (Returned PyTrue, w')
            /\ text = snd r
            /\ mnemonic w' = Some text /\ password w' = ""
            /\ (on_sd w p = true -> sd_mounted w' = false)
        | None =>
            load_mnemonic (Some p) (Some f) w = (Raised (UnicodeError ""), w')
            /\ mnemonic w' = mnemonic w /\ password w' = password w
            /\ (on_sd w p = true -> sd_mounted w' = false)
        end
    | None =>
        load_mnemonic (Some p) (Some f) w
        = (Raised (CryptoError "authentication failed"), w')
        /\ mnemonic w' = mnemonic w /\ password w' = password w
    end.
Proof.
  intros Hl Hsd Hblob. rewrite (load_explicit_eval p f w blob Hl Hsd Hblob). cbv zeta.
  destruct (aead_decrypt (enc_secret w) blob) as [r|];
    [destruct (PyStr.decode (snd r)) as [text|] eqn:Htext|].
  - eexists. split; [|split; [reflexivity|]].
    + simpl. rewrite files_unmounted_for. simpl. by destruct (on_sd w p).
    + split; [by apply decode_Some|]. simpl. repeat split. intros ->. done.
  - eexists. split; [|split; [reflexivity|]].
    + rewrite files_unmounted_for. simpl. by destruct (on_sd w p).
    + destruct (on_sd w p) eqn:E; simpl; rewrite ?E; simpl; repeat split; try done.
      all: by destruct (on_sd w p).
  - eexists. split; [|split; [reflexivity|]].
    + simpl. by destruct (on_sd w p).
    + simpl. by destruct (on_sd w p).
Qed.

(** ** What a save writes *)

Lemma save_files_cases filename path w out w' :
  save_mnemonic filename path w = (out, w') ->
  files w' = files w
  \/ exists p phrase,
       (forall p0, path = Some p0 -> p = p0)
       /\ mnemonic w = Some phrase
       /\ files w' = <[target_of w p filename := blob_of w phrase]> (files w).
Proof.
  intros H. apply save_inv in H as [F|H]; [left; apply F|right].
  destruct H as (p & phrase & w1 & lout & Hp & Hm & F1 & Hload & _).
  exists p, phrase. split; [done|]. split; [done|].
  apply load_keeps_files_and_session in Hload as [-> _].
  rewrite files_unmounted_for. simpl. by rewrite (fr_files _ _ F1).
Qed.

(** X9: whatever its outcome, [save_mnemonic] changes at most one file,
    its target [<path>/<prefix>.<filename>], and what it puts there is the
    sealed session phrase. *)
Theorem save_touches_only_target filename path w out w' :
  save_mnemonic filename path w = (out, w') ->
  files w' = files w
  \/ exists p phrase,
       (forall p0, path = Some p0 -> p = p0)
       /\ mnemonic w = Some phrase
       /\ files w' = <[target_of w p filename := blob_of w phrase]> (files w).
Proof. apply save_files_cases. Qed.

(** X10: a save under one name never changes the record kept under
    another name on the same medium. *)
Theorem save_keeps_other_names filename other p w out w' :
  other <> filename ->
  save_mnemonic filename (Some p) w = (out, w') ->
  files w' !! target_of w p other = files w !! target_of w p other.
Proof.
  intros Hne H. apply save_files_cases in H as [->|H]; [done|].
  destruct H as (p' & phrase & Hp & _ & ->). rewrite <- (Hp p eq_refl).
  apply lookup_insert_ne. unfold target_of. intros E.
  repeat apply (inj (String.app _)) in E. congruence.
Qed.

(** X11: saving under a name that is free asks the user nothing: when the
    sealed phrase opens again and what it opens to decodes as UTF-8, the
    save returns [True] with all answers still unread, the target holding
    the blob, the decoded text as session phrase with the empty password,
    and the card unmounted if the path is on the card. *)
Theorem save_to_free_name filename p w phrase r text :
  is_locked w = false ->
  mnemonic w = Some phrase ->
  (on_sd w p = true -> sd_present w = true) ->
  path_exists w (target_of w p filename) = false ->
  aead_decrypt (enc_secret w) (blob_of w phrase) = Some r ->
  PyStr.decode (snd r) = Some text ->
  exists w',
    save_mnemonic filename (Some p) w = (Returned PyTrue, w')
    /\ answers w' = answers w
    /\ files w' = <[target_of w p filename := blob_of w phrase]> (files w)
    /\ mnemonic w' = Some text
    /\ password w' = ""
    /\ (on_sd w p = true -> sd_mounted w' = false).
Proof.
  intros Hl Hm Hsd Hfree Hdec Htext.
  assert (frame w (mounted_for (on_sd w p) w)) as F1 by apply frame_mounted_for.
  assert ((found <- platform.file_exists (target_of w p filename) ;;
           if found : bool then
             show_prompt (nl ++ nl ++ "File already exists: " ++ filename ++ nl)
               "Would you like to overwrite this file?"
           else ret true) (mounted_for (on_sd w p) w)
          = (Returned true, mounted_for (on_sd w p) w)) as Hgo.
  { assert (platform.file_exists (target_of w p filename) (mounted_for (on_sd w p) w)
            = (Returned false, mounted_for (on_sd w p) w)) as Ef.
    { unfold platform.file_exists, reads. rewrite (fr_files _ _ F1), (fr_dirs _ _ F1).
      unfold path_exists in Hfree. by rewrite Hfree. }
    step Ef. done. }
  rewrite (save_explicit_eval filename p w phrase true _ Hl Hm Hsd Hgo).
  set (W := unmounted_for (on_sd w p)
              (written (target_of w p filename) (blob_of w phrase)
                 (mounted_for (on_sd w p) w))).
  assert (is_locked W = false /\ flashpath W = flashpath w /\ sdpath W = sdpath w
          /\ sd_present W = sd_present w /\ enc_secret W = enc_secret w
          /\ answers W = answers w
          /\ files W = <[target_of w p filename := blob_of w phrase]> (files w))
    as (Wl & Wf & Wsd & Wp & Wk & Wa & Wfiles).
  { unfold W. destruct (on_sd w p); simpl; repeat split; done. }
  assert (files W !! (path_value W p ++ "/" ++ fileprefix w p ++ "." ++ filename)
          = Some (blob_of w phrase)) as Hblob.
  { rewrite (path_value_ext w W p Wf). fold (target_of w p filename).
    rewrite Wfiles. apply lookup_insert_eq. }
  assert (on_sd W p = on_sd w p) as Eon by (by apply on_sd_ext).
  assert (on_sd W p = true -> sd_present W = true) as Hsd'.
  { rewrite Eon, Wp. exact Hsd. }
  unfold bind. rewrite (load_explicit_eval p _ W _ Wl Hsd' Hblob). cbv zeta.
  rewrite Wk, Hdec, Htext. unfold ret. eexists. split; [reflexivity|].
  rewrite Eon. destruct (on_sd w p); simpl; rewrite ?Wa, ?Wfiles; repeat split; done.
Qed.

(** X12: a save or a load that returns [True] for a path on the SD card
    leaves the card unmounted. *)
Theorem success_leaves_card_unmounted w w' :
  (forall filename p,
     save_mnemonic filename (Some p) w = (Returned PyTrue, w') ->
     on_sd w p = true -> sd_mounted w' = false)
  /\ (forall p file,
        load_mnemonic (Some p) file w = (Returned PyTrue, w') ->
        on_sd w p = true -> sd_mounted w' = false).
Proof.
  split.
  - intros filename p H Hsd. apply save_success_inv in H
      as (p' & phrase & r & text & pre & mid & Hp & _ & _ & _ & _ & _ & _ & _ & _ & _ & _ & _
          & _ & _ & _ & Hm & _).
    rewrite <- (Hp p eq_refl) in Hsd. by apply Hm.
  - intros p file H Hsd.
    apply load_Returned_inv in H as [_ [(? & _)|(_ & H)]]; [discriminate|].
    destruct H as (p' & f & w1 & blob & r & text & Hp & _ & _ & _ & _ & _ & _ & ->).
    rewrite <- (Hp p eq_refl) in *. rewrite Hsd. done.
Qed.

(** ** What the file menu offers and what a delete removes *)

Lemma prefix_drop a p : String.prefix a p = true -> a ++ PyStr.drop (String.length a) p = p.
Proof.
  revert p. induction a as [|c a IH]; intros p H; [by destruct p|].
  destruct p as [|c' p]; [done|]. simpl in H.
  destruct (ascii_dec c c') as [->|]; [|done].
  rewrite string_app_cons. simpl. by rewrite IH.
Qed.

Lemma string_length_app a b : String.length (a ++ b) = String.length a + String.length b.
Proof. induction a as [|c a IH]; [done|]. rewrite string_app_cons. simpl. by rewrite IH. Qed.

Lemma string_app_assoc a b c : (a ++ b) ++ c = a ++ b ++ c.
Proof. induction a as [|x a IH]; [done|]. rewrite !string_app_cons. by rewrite IH. Qed.

Lemma child_name_path d q name : child_name d q = Some name -> q = d ++ "/" ++ name.
Proof.
  unfold child_name. destruct (String.prefix (d ++ "/") q) eqn:Hp; [|done].
  destruct (_ || _); [done|]. intros E. simplify_eq.
  apply prefix_drop in Hp. rewrite string_length_app in Hp. simpl in Hp.
  by rewrite string_app_assoc in Hp.
Qed.

Lemma ilistdir_Returned_inv d w names w' :
  os.ilistdir d w = (Returned names, w') ->
  w' = w /\ d ∈ dirs w
  /\ forall name, name ∈ names -> path_exists w (d ++ "/" ++ name) = true.
Proof.
  unfold os.ilistdir. destruct (bool_decide (d ∈ dirs w)) eqn:Hd; [|done].
  apply bool_decide_eq_true in Hd. intros [= <- <-].
  split; [done|]. split; [done|]. intros name Hn. unfold path_exists.
  apply elem_of_app in Hn as [Hn|Hn]; apply list_elem_of_omap in Hn as (q & Hq & Hc);
    apply child_name_path in Hc as <-.
  - apply list_elem_of_fmap in Hq as ([q' v] & -> & Hq). apply elem_of_map_to_list in Hq.
    simpl. rewrite bool_decide_eq_true_2 by eauto. done.
  - apply elem_of_elements in Hq. rewrite (bool_decide_eq_true_2 (q ∈ dirs w)) by done.
    apply orb_true_r.
Qed.

Lemma select_file_picks p prefix w f w' :
  select_file p prefix w = (Returned (Some f), w') ->
  PyStr.startswith f prefix = true
  /\ path_exists w (path_value w p ++ "/" ++ f) = true.
Proof.
  unfold select_file. intros H.
  apply bind_Returned_inv in H as (names & w1 & Hn & H).
  apply ilistdir_Returned_inv in Hn as (-> & _ & Hex).
  match type of H with (if ?b then _ else _) _ = _ => destruct b end; [done|].
  apply bind_Returned_inv in H as (fname & w2 & Hm & H). unfold ret in H. simplify_eq.
  apply show_menu_Returned_inv in Hm as [?|(i & v & txt & Hi & E)]; [done|]. simplify_eq.
  apply list_lookup_fmap_Some in Hi as ([name label] & He & Hi). simplify_eq. simpl in *.
  apply list_elem_of_lookup_2 in Hi. rewrite merge_sort_Permutation in Hi.
  apply list_elem_of_omap in Hi as (x & Hx & E).
  destruct (PyStr.startswith x prefix) eqn:Hs; simplify_eq. split; [done|]. by apply Hex.
Qed.

(** X13: the file [select_file] hands back is one the user was offered: an
    entry that exists in the directory and whose name starts with the
    prefix. *)
Theorem select_file_returns_listed p prefix w f w' :
  select_file p prefix w = (Returned (Some f), w') ->
  PyStr.startswith f prefix = true
  /\ path_exists w (path_value w p ++ "/" ++ f) = true.
Proof. apply select_file_picks. Qed.

(** X14: when no entry of the directory starts with the prefix,
    [select_file] raises [KeyStoreError] "No matching files found" and
    shows no menu. *)
Theorem select_file_no_match p prefix w :
  path_value w p ∈ dirs w ->
  (forall name,
     path_exists w (path_value w p ++ "/" ++ name) = true ->
     PyStr.startswith name prefix = false) ->
  select_file p prefix w
  = (Raised (KeyStoreError (nl ++ nl ++ "No matching files found")), w).
Proof.
  intros Hd Hno.
  destruct (select_file_offers p prefix w Hd) as (names & Hn & ->).
  apply ilistdir_Returned_inv in Hn as (_ & _ & Hex).
  assert (offered names prefix = []) as ->; [|done].
  unfold offered.
  assert (omap (fun name : string =>
                  if PyStr.startswith name prefix
                  then Some (name, displayname name prefix)
                  else None) names = []) as ->; [|done].
  destruct (omap _ names) as [|[name label] l] eqn:E; [done|].
  assert ((name, label) ∈ omap (fun name : string =>
                  if PyStr.startswith name prefix
                  then Some (name, displayname name prefix)
                  else None) names) as Hin by (rewrite E; left).
  apply list_elem_of_omap in Hin as (x & Hx & Hs).
  rewrite (Hno x (Hex x Hx)) in Hs. done.
Qed.


(** X16: whatever its outcome, [delete_mnemonic] removes at most one file,
    and only one whose name starts with this device's prefix for the
    medium; when it has removed a file it returns [True]. *)
Theorem delete_removes_only_own_record path w out w' :
  delete_mnemonic path w = (out, w') ->
  files w' = files w
  \/ exists p f,
       (forall p0, path = Some p0 -> p = p0)
       /\ PyStr.startswith f (fileprefix w p) = true
       /\ out = Returned PyTrue
       /\ files w' = delete (path_value w p ++ "/" ++ f) (files w).
Proof.
  unfold delete_mnemonic. intros H.
  apply bind_inv in H as [(op & w1 & Hp & H)|(o & Hp & _)].
  2:{ left. destruct path; [unfold ret in Hp; by simplify_eq|].
      apply get_keypath_frame in Hp. apply Hp. }
  assert (frame w w1) as F1.
  { destruct path; [unfold ret in Hp; simplify_eq; apply frame_refl|].
    by eapply get_keypath_frame. }
  destruct op as [p|]; [|unfold ret in H; simplify_eq; left; apply F1].
  apply bind_inv in H as [(sd & w2 & H2 & H)|(o & H2 & Ho)];
    unfold reads in H2; simplify_eq; try (destruct Ho).
  apply bind_inv in H as [(u & w3 & H3 & H)|(o & H3 & _)].
  2:{ left. apply mount_step_frame in H3. rewrite (fr_files _ _ H3). apply F1. }
  assert (frame w w3) as F3.
  { eapply frame_trans; [exact F1|]. by eapply mount_step_frame. }
  apply bind_inv in H as [(pre & w4 & H4 & H)|(o & H4 & Ho)];
    unfold reads in H4; simplify_eq; try (destruct Ho).
  rewrite (fileprefix_frame _ _ p F3) in H.
  apply bind_inv in H as [(ofile & w5 & H5 & H)|(o & H5 & _)].
  2:{ left. apply select_file_frame in H5. rewrite (fr_files _ _ H5). apply F3. }
  assert (frame w w5) as F5.
  { eapply frame_trans; [exact F3|]. by eapply select_file_frame. }
  destruct ofile as [f|]; [|unfold ret in H; simplify_eq; left; apply F5].
  apply select_file_picks in H5 as [Hs _].
  apply bind_inv in H as [(t & w6 & H6 & H)|(o & H6 & Ho)];
    unfold reads in H6; simplify_eq; try (destruct Ho).
  apply bind_inv in H as [(d & w7 & H7 & H)|(o & H7 & Ho)];
    unfold reads in H7; simplify_eq; try (destruct Ho).
  apply bind_inv in H as [(found & w8 & H8 & H)|(o & H8 & Ho)];
    unfold platform.file_exists, reads in H8; simplify_eq; try (destruct Ho).
  match type of H with (if negb ?b then _ else _) _ = _ => destruct b end; simpl in H;
    [|unfold raise in H; simplify_eq; left; apply F5].
  rewrite (path_value_frame _ _ p F5) in H.
  unfold bind, try_finally, try_except, os.remove in H.
  destruct (files _ !! _) as [blob|] eqn:Hblob.
  - destruct (bool_decide _) eqn:Hu.
    + left. simpl in H.
      destruct (path_eqb _ _ _); simpl in H; unfold ret in H;
        simplify_eq; simpl; apply F5.
    + right. exists p, f.
      split; [intros p0 ->; unfold ret in Hp; by simplify_eq|]. split; [done|].
      simpl in H.
      destruct (path_eqb _ _ _); simpl in H; unfold ret in H;
        simplify_eq; simpl; by rewrite (fr_files _ _ F5).
  - left. simpl in H.
    destruct (path_eqb _ _ _); simpl in H; unfold ret in H;
      simplify_eq; simpl; apply F5.
Qed.

(** X17: once the user has picked a record that [os.remove] can remove,
    [delete_mnemonic] returns [True], the record is gone and every other
    file is as before, and on the SD card the card is unmounted again. *)
Theorem delete_picked_record p w file w2 blob :
  (on_sd w p = true -> sd_present w = true) ->
  select_file p (fileprefix w p) (mounted_for (on_sd w p) w) = (Returned (Some file), w2) ->
  files w !! (path_value w p ++ "/" ++ file) = Some blob ->
  path_value w p ++ "/" ++ file ∉ undeletable w ->
  exists w',
    delete_mnemonic (Some p) w = (Returned PyTrue, w')
    /\ files w' = delete (path_value w p ++ "/" ++ file) (files w)
    /\ (on_sd w p = true -> sd_mounted w' = false).
Proof.
  intros Hsd Hsel Hblob Hok.
  rewrite (delete_mnemonic_picked p w file w2 blob Hsd Hsel Hblob). cbv zeta.
  rewrite bool_decide_eq_false_2 by done.
  assert (frame w w2) as F2.
  { eapply frame_trans; [apply frame_mounted_for|]. by eapply select_file_frame. }
  eexists. split; [reflexivity|]. split.
  - rewrite files_unmounted_for. simpl. by rewrite (fr_files _ _ F2).
  - intros ->. done.
Qed.

(** ** Labels and prefixes *)

Lemma fileprefix_nonempty w p : fileprefix w p <> "".
Proof. destruct p; [done|]. by rewrite fileprefix_other. Qed.

Lemma string_app_nil_r s : s ++ "" = s.
Proof. induction s as [|c s IH]; [done|]. rewrite string_app_cons. by rewrite IH. Qed.

(** X18: a record saved under [filename] is listed under that very name:
    the label of [<prefix>.<filename>] is [filename], provided the prefix
    does not occur in [.<filename>]. *)
Theorem saved_name_is_label w p filename :
  PyStr.remove_all ("." ++ filename) (fileprefix w p) = "." ++ filename ->
  displayname (fileprefix w p ++ "." ++ filename) (fileprefix w p) = filename.
Proof.
  intros H. rewrite (displayname_single _ _ (fileprefix_nonempty w p) H). done.
Qed.

(** X19: a file named by the bare prefix is listed as ["Default"]. *)
Theorem bare_prefix_is_default w p :
  displayname (fileprefix w p) (fileprefix w p) = "Default".
Proof.
  pose proof (displayname_single (fileprefix w p) "" (fileprefix_nonempty w p)) as H.
  rewrite string_app_nil_r in H. apply H. unfold PyStr.remove_all.
  by destruct (fileprefix w p).
Qed.

Lemma hexlify_length b : String.length (PyStr.hexlify b) = 2 * String.length b.
Proof.
  induction b as [|c b IH]; [done|]. cbn [PyStr.hexlify String.length]. rewrite IH. lia.
Qed.

Lemma take_length n s : String.length (PyStr.take n s) = Nat.min n (String.length s).
Proof.
  revert s. induction n as [|n IH]; intros [|c s]; simpl; try done. by rewrite IH.
Qed.

Lemma hexlify_byte c :
  let n := nat_of_ascii c in
  is_hexdigit (PyStr.hexdigit (n / 16)) = true
  /\ is_hexdigit (PyStr.hexdigit (n mod 16)) = true
  /\ ascii_of_nat (16 * hexvalue (PyStr.hexdigit (n / 16))
                   + hexvalue (PyStr.hexdigit (n mod 16))) = c.
Proof.
  destruct c as [[] [] [] [] [] [] [] []]; vm_compute; done.
Qed.

Lemma hexlify_hexdigits b : all_hexdigits (PyStr.hexlify b) = true.
Proof.
  induction b as [|c b IH]; [done|]. cbn [PyStr.hexlify all_hexdigits]. cbv zeta.
  destruct (hexlify_byte c) as (-> & -> & _). exact IH.
Qed.

Lemma unhexlify_hexlify b : unhexlify (PyStr.hexlify b) = b.
Proof.
  induction b as [|c b IH]; [done|]. cbn [PyStr.hexlify unhexlify]. cbv zeta.
  destruct (hexlify_byte c) as (_ & _ & ->). by rewrite IH.
Qed.

(** X20: the prefix of any path other than the flash path object is
    ["specterdiy"] followed by lowercase hexadecimal digits, two for each
    of the first four bytes of the tagged hash of the secret (eight digits
    when the hash has at least four bytes). *)
Theorem sd_prefix_shape self s :
  exists hex,
    fileprefix self (Str s) = "specterdiy" ++ hex
    /\ all_hexdigits hex = true
    /\ String.length hex
       = 2 * Nat.min 4 (String.length (tagged_hash "sdid" (secret self))).
Proof.
  eexists. split; [apply fileprefix_other|]. split.
  - apply hexlify_hexdigits.
  - by rewrite hexlify_length, take_length.
Qed.

(** X21: two keystores get the same SD prefix exactly when the tagged
    hashes of their secrets agree on the first four bytes. *)
Theorem sd_prefix_collision w w' s s' :
  fileprefix w (Str s) = fileprefix w' (Str s')
  <-> PyStr.take 4 (tagged_hash "sdid" (secret w))
      = PyStr.take 4 (tagged_hash "sdid" (secret w')).
Proof.
  rewrite !fileprefix_other. split.
  - intros E. apply (inj (String.app _)) in E.
    apply (f_equal unhexlify) in E. by rewrite !unhexlify_hexlify in E.
  - by intros ->.
Qed.

(** ** Backing out of the media menu *)

Lemma get_keypath_back title only_if_exist note w rest :
  answers w = Back :: rest ->
  exists w1,
    get_keypath title only_if_exist note w = (Returned None, w1)
    /\ frame w w1
    /\ answers w1 = rest
    /\ (sd_present w = true -> sd_mounted w1 = false).
Proof.
  intros Ha.
  destruct (get_keypath title only_if_exist note w) as [o w1] eqn:E.
  pose proof (get_keypath_frame _ _ _ _ _ _ E) as F.
  revert E.
  unfold get_keypath, bind, platform.file_exists, platform.is_sd_present, reads,
    platform.mount_sdcard, platform.unmount_sdcard, ret, show_menu, bind, show.
  destruct (sd_present w) eqn:Hp; simpl; rewrite Ha; simpl; intros E; simplify_eq;
    eexists; (split; [reflexivity|]); done.
Qed.

(** X22: backing out of the media menu makes delete, load and save return
    [False] with the files and the session untouched, the rest of the
    answers unread, and the card (when there is one) unmounted. *)
Theorem media_menu_cancelled filename file w rest :
  answers w = Back :: rest ->
  (exists w',
     delete_mnemonic None w = (Returned PyFalse, w')
     /\ frame w w' /\ answers w' = rest
     /\ (sd_present w = true -> sd_mounted w' = false))
  /\ (is_locked w = false ->
      exists w',
        load_mnemonic None file w = (Returned PyFalse, w')
        /\ frame w w' /\ answers w' = rest
        /\ (sd_present w = true -> sd_mounted w' = false))
  /\ (is_locked w = false -> mnemonic w <> None ->
      exists w',
        save_mnemonic filename None w = (Returned PyFalse, w')
        /\ frame w w' /\ answers w' = rest
        /\ (sd_present w = true -> sd_mounted w' = false)).
Proof.
  intros Ha. split; [|split].
  - destruct (get_keypath_back "From where to delete?" true None w rest Ha)
      as (w1 & E & F & Hr & Hm).
    exists w1. split; [|done]. unfold delete_mnemonic. step E. done.
  - intros Hl.
    destruct (get_keypath_back "From where to load?" true (Some "Select media") w rest Ha)
      as (w1 & E & F & Hr & Hm).
    exists w1. split; [|done]. unfold load_mnemonic.
    step (eq_refl (reads is_locked w)). rewrite Hl. cbv iota. step E. done.
  - intros Hl Hph.
    destruct (get_keypath_back "Where to save?" false (Some "Select media") w rest Ha)
      as (w1 & E & F & Hr & Hm).
    exists w1. split; [|done]. unfold save_mnemonic.
    step (eq_refl (reads is_locked w)). rewrite Hl. cbv iota.
    step (eq_refl (reads mnemonic w)). destruct (mnemonic w); [|done]. cbv iota.
    step E. done.
Qed.

(** ** The menu loop and its fuel *)

Create HintDb tame.

Lemma tame_bind {A B} (m : M A) (k : A -> M B) :
  tame m -> (forall a, tame (k a)) -> tame (bind m k).
Proof.
  intros Hm Hk w out w' H.
  apply bind_inv in H as [(a & w1 & H1 & H2)|(o & H1 & Ho)].
  - apply Hm in H1 as [_ L1]. apply Hk in H2 as [N L2]. split; [done|lia].
  - apply Hm in H1 as [N L1]. split; [|done].
    destruct o; simpl in Ho; try done; by subst.
Qed.

Ltac tame_atom :=
  let w := fresh "w" in let out := fresh "out" in
  let w' := fresh "w'" in let H := fresh "H" in
  intros w out w' H;
  cbv beta zeta delta [ret raise suspend reads emit print show
                       platform.is_sd_present platform.mount_sdcard
                       platform.unmount_sdcard platform.file_exists
                       os.ilistdir os.remove save_aead load_aead set_mnemonic] in H;
  repeat match type of H with
         | context [match ?x with _ => _ end] => destruct x eqn:?
         end;
  simplify_eq; simpl;
  (split; [done|]);
  repeat match goal with E : answers _ = _ |- _ => rewrite E end;
  simpl; lia.

Lemma tame_try_except {A} (body : M A) (handler : exn -> M A) :
  tame body -> (forall e, tame (handler e)) -> tame (try_except body handler).
Proof.
  intros Hb Hh w out w' H. unfold try_except in H.
  destruct (body w) as [o w1] eqn:E. apply Hb in E as [N L].
  destruct o; simplify_eq; try (split; [done|lia]).
  apply Hh in H as [N' L']. split; [done|lia].
Qed.

Lemma tame_try_finally {R} (body fin : M (option R)) :
  tame body -> tame fin -> tame (try_finally body fin).
Proof.
  intros Hb Hf w out w' H. unfold try_finally in H.
  destruct (body w) as [o w1] eqn:E. apply Hb in E as [N L].
  destruct o as [a|e| |]; simplify_eq; try (split; [done|lia]);
    destruct (fin w1) as [o2 w2] eqn:E2; apply Hf in E2 as [N2 L2];
    destruct o2 as [[r|]|e2| |]; simplify_eq; split; try done; lia.
Qed.

Ltac tame_go :=
  lazymatch goal with
  | |- tame (bind _ _) => apply tame_bind; [tame_go | intros ?; tame_go]
  | |- tame (try_finally _ _) => apply tame_try_finally; tame_go
  | |- tame (try_except _ _) => apply tame_try_except; [tame_go | intros ?; tame_go]
  | |- tame (if ?b then _ else _) => destruct b; tame_go
  | |- tame (match ?x with _ => _ end) => destruct x; tame_go
  | |- tame _ => first [ solve [eauto with tame] | tame_atom ]
  end.

Lemma tame_show_menu {A} t n (bs : list (button A)) last : tame (show_menu t n bs last).
Proof. unfold show_menu. tame_go. Qed.

Lemma tame_show_prompt t m : tame (show_prompt t m).
Proof. unfold show_prompt. tame_go. Qed.

Lemma tame_show_alert t m b : tame (show_alert t m b).
Proof. unfold show_alert. tame_go. Qed.

Lemma tame_show_mnemonic : tame show_mnemonic.
Proof. unfold show_mnemonic. tame_go. Qed.

Lemma tame_get_input : tame get_input.
Proof. unfold get_input. tame_go. Qed.

#[local] Hint Resolve tame_show_menu tame_show_prompt tame_show_alert
  tame_show_mnemonic tame_get_input : tame.

Lemma tame_get_keypath t o n : tame (get_keypath t o n).
Proof. unfold get_keypath. tame_go. Qed.

Lemma tame_select_file p prefix : tame (select_file p prefix).
Proof. unfold select_file. tame_go. Qed.

#[local] Hint Resolve tame_get_keypath tame_select_file : tame.

Lemma tame_load_mnemonic path file : tame (load_mnemonic path file).
Proof. unfold load_mnemonic. tame_go. Qed.

#[local] Hint Resolve tame_load_mnemonic : tame.

Lemma tame_save_mnemonic filename path : tame (save_mnemonic filename path).
Proof. unfold save_mnemonic. tame_go. Qed.

Lemma tame_delete_mnemonic path : tame (delete_mnemonic path).
Proof. unfold delete_mnemonic. tame_go. Qed.

#[local] Hint Resolve tame_save_mnemonic tame_delete_mnemonic : tame.

Lemma safe_of_tame {A} n (m : M A) : tame m -> safe n m.
Proof.
  intros Hm w _. destruct (m w) as [o w'] eqn:E. apply Hm in E as [N _]. done.
Qed.

Lemma safe_bind {A B} n (m : M A) (k : A -> M B) :
  tame m -> (forall a, safe n (k a)) -> safe n (bind m k).
Proof.
  intros Hm Hk w L. unfold bind. destruct (m w) as [o w1] eqn:E.
  apply Hm in E as [N L1]. destruct o; simpl; try done.
  apply Hk. lia.
Qed.

Lemma show_menu_consumes {A} t n (bs : list (button A)) last w r w' :
  show_menu t n bs last w = (Returned r, w') ->
  List.length (answers w) = S (List.length (answers w')).
Proof.
  unfold show_menu, bind, show.
  destruct (answers w) as [|a rest]; [done|].
  destruct a; unfold ret, suspend; try (intros; simplify_eq; done).
  destruct (bs !! i) as [[[[v|] txt] [|]]|]; intros; simplify_eq; done.
Qed.

Ltac safe_go :=
  lazymatch goal with
  | |- safe _ (storage_menu _) => assumption
  | |- safe _ (bind _ _) => apply safe_bind; [tame_go | intros ?; safe_go]
  | |- safe _ (if ?b then _ else _) => destruct b; safe_go
  | |- safe _ (match ?x with _ => _ end) => destruct x; safe_go
  | |- safe _ _ => apply safe_of_tame; tame_go
  end.

(** X23: every turn of the menu loop waits for an answer of the user, and
    no operation puts answers back: run with more fuel than there are
    answers to come, [storage_menu] never runs out of fuel, so it returns,
    raises or waits at a screen. *)
Theorem storage_menu_fuel fuel w :
  List.length (answers w) < fuel ->
  fst (storage_menu fuel w) <> OutOfFuel.
Proof.
  revert w. change (safe fuel (storage_menu fuel)).
  induction fuel as [|fuel IH]; [intros w L; lia|].
  intros w L. cbn [storage_menu]. unfold bind at 1.
  destruct (show_menu None None storage_buttons (Some 255%Z) w) as [o w1] eqn:E.
  pose proof (tame_show_menu _ _ _ _ _ _ _ E) as [N _].
  destruct o as [menuitem| | |]; simpl; try done.
  apply show_menu_consumes in E.
  assert (List.length (answers w1) < fuel) as L1 by lia.
  revert w1 L1 E. clear L. intros w1 L1 _. revert w1 L1.
  change (safe fuel
    (if bool_decide (menuitem = Some 255%Z) then ret tt
     else if bool_decide (menuitem = Some 0%Z) then
       filename <- get_input ;;
       match filename with
       | None => ret tt
       | Some filename =>
           if String.eqb filename "" then
             show_alert "Error!"
               ("Please provide a valid name!" ++ nl ++ nl ++ "Your file has NOT been saved.")
               "OK" ;;;
             ret tt
           else
             saved <- save_mnemonic filename None ;;
             (if truthy saved then
                show_alert "Success!"
                  ("Your key is stored now." ++ nl ++ nl ++ "Name: " ++ filename) "OK"
              else ret tt) ;;;
             storage_menu fuel
       end
     else if bool_decide (menuitem = Some 1%Z) then
       res <- load_mnemonic None None ;;
       print (render res) ;;;
       (if truthy res then show_alert "Success!" "Your key is loaded." "OK"
        else ret tt) ;;;
       storage_menu fuel
     else if bool_decide (menuitem = Some 2%Z) then
       deleted <- delete_mnemonic None ;;
       (if truthy deleted then show_alert "Success!" "Your key is deleted." "OK"
        else ret tt) ;;;
       storage_menu fuel
     else if bool_decide (menuitem = Some 3%Z) then
       show_mnemonic ;;;
       storage_menu fuel
     else storage_menu fuel)).
  safe_go.
Qed.

Lemma storage_menu_tap i v txt w rest :
  storage_buttons !! i = Some (Some v, txt, true) ->
  answers w = Tap i :: rest ->
  show_menu None None storage_buttons (Some 255%Z) w
  = (Returned (Some v), with_answers rest (log (EvShow storage_screen) w)).
Proof.
  intros Hb Ha. unfold show_menu, bind, show. rewrite Ha. simpl.
  change (match storage_buttons !! i with
          | Some (Some v, _, true) => ret (Some v)
          | _ => suspend
          end (with_answers rest (log (EvShow storage_screen) w))
          = (Returned (Some v), with_answers rest (log (EvShow storage_screen) w))).
  by rewrite Hb.
Qed.

(** X24: [storage_menu] catches nothing.  When the load, the delete or the
    save started from the menu raises, the menu ends at once with that
    exception, in the world the operation left. *)
Theorem storage_menu_passes_errors_on fuel w e w2 :
  (forall rest,
     answers w = Tap 2 :: rest ->
     load_mnemonic None None (with_answers rest (log (EvShow storage_screen) w))
     = (Raised e, w2) ->
     storage_menu (S fuel) w = (Raised e, w2))
  /\ (forall rest,
        answers w = Tap 3 :: rest ->
        delete_mnemonic None (with_answers rest (log (EvShow storage_screen) w))
        = (Raised e, w2) ->
        storage_menu (S fuel) w = (Raised e, w2))
  /\ (forall name rest,
        answers w = Tap 1 :: Typed (Some name) :: rest ->
        name <> "" ->
        save_mnemonic name None
          (with_answers rest (log (EvShow name_screen) (log (EvShow storage_screen) w)))
        = (Raised e, w2) ->
        storage_menu (S fuel) w = (Raised e, w2)).
Proof.
  split; [|split].
  - intros rest Ha H. cbn [storage_menu].
    step (storage_menu_tap 2 1%Z "Load key" w rest eq_refl Ha).
    rewrite (bool_decide_eq_false_2 (Some 1%Z = Some 255%Z)) by done.
    rewrite (bool_decide_eq_false_2 (Some 1%Z = Some 0%Z)) by done.
    rewrite (bool_decide_eq_true_2 (Some 1%Z = Some 1%Z)) by done.
    by apply bind_eval_raise.
  - intros rest Ha H. cbn [storage_menu].
    step (storage_menu_tap 3 2%Z "Delete key" w rest eq_refl Ha).
    rewrite (bool_decide_eq_false_2 (Some 2%Z = Some 255%Z)) by done.
    rewrite (bool_decide_eq_false_2 (Some 2%Z = Some 0%Z)) by done.
    rewrite (bool_decide_eq_false_2 (Some 2%Z = Some 1%Z)) by done.
    rewrite (bool_decide_eq_true_2 (Some 2%Z = Some 2%Z)) by done.
    by apply bind_eval_raise.
  - intros name rest Ha Hne H. cbn [storage_menu].
    step (storage_menu_tap 1 0%Z "Save key" w (Typed (Some name) :: rest) eq_refl Ha).
    rewrite (bool_decide_eq_false_2 (Some 0%Z = Some 255%Z)) by done.
    rewrite (bool_decide_eq_true_2 (Some 0%Z = Some 0%Z)) by done.
    assert (get_input (with_answers (Typed (Some name) :: rest)
                         (log (EvShow storage_screen) w))
            = (Returned (Some name),
               with_answers rest
                 (log (EvShow name_screen) (log (EvShow storage_screen) w)))) as Ei.
    { reflexivity. }
    step Ei.
    assert (String.eqb name "" = false) as -> by (by apply String.eqb_neq).
    by apply bind_eval_raise.
Qed.

End SDKeyStore.

(** ** The class on the sample device *)

Lemma drop_app k pt : PyStr.drop (String.length k) (k ++ pt) = pt.
Proof.
  induction k as [|c k IH]; [by destruct pt|].
  rewrite string_app_cons. exact IH.
Qed.

(** The sample cipher opens what it sealed. *)
Lemma sample_open_seal n k pt : Sample.open k (Sample.seal n k "" pt) = Some ("", pt).
Proof. unfold Sample.open, Sample.seal. by rewrite prefix_app, drop_app. Qed.

(** The listing of the specification's example. *)
Example offered_example :
  offered ["specterdiyAB12.bob"; "other.file"; "specterdiyAB12.alice"; "specterdiyAB12"]
    "specterdiyAB12"
  = [("specterdiyAB12", "Default"); ("specterdiyAB12.alice", "alice");
     ("specterdiyAB12.bob", "bob")].
Proof. vm_compute. reflexivity. Qed.

Example hexlify_example :
  PyStr.hexlify (String (ascii_of_nat 171) (String (ascii_of_nat 18) "")) = "ab12".
Proof. reflexivity. Qed.

(** Text that decodes, and bytes that do not: 0xff 0xfe, a lead byte
    without its continuation, a continuation byte out of place. *)
Example decode_examples :
  PyStr.decode "abandon ability able" = Some "abandon ability able"
  /\ PyStr.decode (String (ascii_of_nat 195) (String (ascii_of_nat 169) ".k")) <> None
  /\ PyStr.decode (String (ascii_of_nat 255) (String (ascii_of_nat 254) "")) = None
  /\ PyStr.decode (String (ascii_of_nat 195) ".k") = None
  /\ PyStr.decode (String (ascii_of_nat 169) ".k") = None.
Proof. repeat split; vm_compute; congruence. Qed.

(** The label strips one character, here the two bytes 0xc3 0xa9. *)
Example displayname_strips_character :
  displayname ("reckless" ++ String (ascii_of_nat 195) (String (ascii_of_nat 169) ".k"))
    "reckless" = ".k".
Proof. vm_compute. reflexivity. Qed.

(** A record of the card that opens to bytes that are not UTF-8: the load
    raises once the card is unmounted, and the session stays as it was. *)
Example load_undecodable_record :
  let w0 := Sample.device [] in
  let w :=
    with_files
      (<["/sd/specterdiy73646964.raw" :=
           String "K" (String (ascii_of_nat 255) (String (ascii_of_nat 254) ""))]>
         (files w0)) w0 in
  let r := load_mnemonic Sample.hash Sample.open (Some (Str "/sd"))
             (Some "specterdiy73646964.raw") w in
  fst r = Raised (UnicodeError "")
  /\ mnemonic (snd r) = Some "abandon ability able"
  /\ password (snd r) = "hunter2"
  /\ sd_mounted (snd r) = false
  /\ trace (snd r)
     = [EvMount; EvPrint "loading specterdiy73646964.raw";
        EvLoadAead "/sd/specterdiy73646964.raw"; EvUnmount].
Proof. repeat split; vm_compute; reflexivity. Qed.

(** C1 (defect of the code): the flash record [reckless.alice] exists and
    [os.remove] raises on it; [delete_mnemonic] prints the error, keeps the
    file, and returns [True] like a delete that worked, instead of raising
    the [KeyStoreError] of its handler. *)
Theorem delete_reports_failed_removal_as_success :
  let w := Sample.device [Tap 0] in
  let r := delete_mnemonic Sample.hash (Some Flashpath) w in
  fst (os.remove "/flash/reckless.alice" w) = Raised (OSError "EIO")
  /\ fst r = Returned PyTrue
  /\ files (snd r) !! "/flash/reckless.alice" = Some "Kzoo zone zero"
  /\ trace (snd r)
     = [EvShow (Menu (Some "Select a file") None [("alice", true); ("my..key", true)]);
        EvPrint "EIO"].
Proof. repeat split; vm_compute; reflexivity. Qed.

(** C2 (defect of the code): operations on the SD card that end with the
    card still mounted: a save whose overwrite prompt is declined, a load
    cancelled at the file menu, a load of a file that is not there, a load
    whose blob does not open, a save whose read-back fails, and a delete
    cancelled at the file menu. *)
Theorem sd_card_left_mounted :
  let sd := Some (Str "/sd") in
  let declined :=
    save_mnemonic Sample.hash Sample.seal Sample.open "alice" sd
      (Sample.device [Answer false]) in
  let cancelled :=
    load_mnemonic Sample.hash Sample.open sd None (Sample.device [Back]) in
  let missing :=
    load_mnemonic Sample.hash Sample.open sd (Some "specterdiy73646964.carol")
      (Sample.device []) in
  let corrupt :=
    load_mnemonic Sample.hash Sample.open_never sd (Some "specterdiy73646964.alice")
      (Sample.device []) in
  let unverified :=
    save_mnemonic Sample.hash Sample.seal Sample.open_never "carol" sd
      (Sample.device []) in
  let undeleted :=
    delete_mnemonic Sample.hash sd (Sample.device [Back]) in
  (fst declined = Returned PyNone /\ sd_mounted (snd declined) = true)
  /\ (fst cancelled = Returned PyFalse /\ sd_mounted (snd cancelled) = true)
  /\ (fst missing = Raised (KeyStoreError "Key is not saved")
      /\ sd_mounted (snd missing) = true)
  /\ (fst corrupt = Raised (CryptoError "authentication failed")
      /\ sd_mounted (snd corrupt) = true)
  /\ (fst unverified = Raised (CryptoError "authentication failed")
      /\ sd_mounted (snd unverified) = true)
  /\ (fst undeleted = Returned PyFalse /\ sd_mounted (snd undeleted) = true).
Proof. repeat split; vm_compute; reflexivity. Qed.

(** C5 (defect of the code): for the flash record
    [reckless.my.reckless.key] the rest of the name after the prefix
    [reckless], less its separator, is [my.reckless.key]; the menu of
    [select_file] labels it [my..key], because [replace] removes every
    occurrence of the prefix and not only the leading one. *)
Theorem select_file_label_loses_text :
  let r := select_file Flashpath "reckless" (Sample.device [Tap 1]) in
  PyStr.startswith "reckless.my.reckless.key" "reckless" = true
  /\ PyStr.drop 1 (PyStr.drop (String.length "reckless") "reckless.my.reckless.key")
     = "my.reckless.key"
  /\ displayname "reckless.my.reckless.key" "reckless" = "my..key"
  /\ fst r = Returned (Some "reckless.my.reckless.key")
  /\ trace (snd r)
     = [EvShow (Menu (Some "Select a file") None [("alice", true); ("my..key", true)])].
Proof. repeat split; vm_compute; reflexivity. Qed.

(** C8 (defect of the code): [delete_mnemonic] has no locked check.  On the
    locked device it mounts and unmounts the card for the media menu, shows
    the record of the flash and removes it, and returns [True]. *)
Theorem delete_mnemonic_runs_while_locked :
  let w := Sample.locked_device [Tap 1; Tap 0] in
  let r := delete_mnemonic Sample.hash None w in
  is_locked w = true
  /\ files w !! "/flash/reckless.bob" = Some "Kzoo zone zero"
  /\ fst r = Returned PyTrue
  /\ files (snd r) !! "/flash/reckless.bob" = None
  /\ trace (snd r)
     = [EvMount; EvUnmount;
        EvShow (Menu (Some "From where to delete?") None
                  [("Make your choice", true); ("Internal flash", true);
                   ("SD card", true)]);
        EvShow (Menu (Some "Select a file") None [("bob", true)]);
        EvRemove "/flash/reckless.bob"].
Proof. repeat split; vm_compute; reflexivity. Qed.

(** ** Instances of the general statements *)

Lemma save_verified_by_readback_witness :
  let w := Sample.device [] in
  let r := save_mnemonic Sample.hash Sample.seal Sample.open "carol" (Some Flashpath) w in
  fst r = Returned PyTrue
  /\ exists blob res,
       files (snd r) !! "/flash/reckless.carol" = Some blob
       /\ Sample.open "K" blob = Some res.
Proof.
  intros w r. split; [vm_compute; reflexivity|].
  destruct (save_verified_by_readback Sample.hash Sample.seal Sample.open
              "carol" (Some Flashpath) w (fst r) (snd r)) as [H _].
  { vm_compute; reflexivity. }
  destruct H as (p & phrase & res & pre & mid & post & Hp & Hm & _ & Hf & Hd).
  { vm_compute; reflexivity. }
  rewrite (Hp Flashpath eq_refl) in Hf.
  exists (blob_of Sample.seal w phrase), res. split; [exact Hf|exact Hd].
Defined.

Lemma load_after_save_roundtrip_witness :
  let w := Sample.device [] in
  let r := save_mnemonic Sample.hash Sample.seal Sample.open "carol" (Some (Str "/sd")) w in
  let forgotten := with_mnemonic None "" (snd r) in
  fst r = Returned PyTrue
  /\ mnemonic forgotten = None
  /\ exists w2,
       load_mnemonic Sample.hash Sample.open (Some (Str "/sd"))
         (Some "specterdiy73646964.carol") forgotten = (Returned PyTrue, w2)
       /\ mnemonic w2 = Some "abandon ability able".
Proof.
  intros w r forgotten. split; [vm_compute; reflexivity|]. split; [reflexivity|].
  destruct (load_after_save_roundtrip Sample.hash Sample.seal Sample.open
              "carol" (Some (Str "/sd")) w (snd r))
    as (p & phrase & Hp & Hm & _ & _ & Hany).
  { apply sample_open_seal. }
  { vm_compute; reflexivity. }
  destruct (Hany None "") as (w2 & Hload & Hm2 & _).
  rewrite (Hp (Str "/sd") eq_refl) in Hload.
  assert (phrase = "abandon ability able") as -> by (vm_compute in Hm; congruence).
  exists w2. split; [exact Hload|exact Hm2].
Defined.

Lemma overwrite_guard_witness :
  let declined :=
    save_mnemonic Sample.hash Sample.seal Sample.open "alice" (Some Flashpath)
      (Sample.device [Answer false]) in
  let confirmed :=
    save_mnemonic Sample.hash Sample.seal Sample.open "alice" (Some Flashpath)
      (Sample.device [Answer true]) in
  (fst declined = Returned PyNone
   /\ files (snd declined) = files (Sample.device [Answer false]))
  /\ files (snd confirmed) !! "/flash/reckless.alice" = Some "Kabandon ability able".
Proof.
  intros declined confirmed. split.
  - apply (overwrite_guard Sample.hash Sample.seal Sample.open "alice" Flashpath
             (Sample.device [Answer false]) "abandon ability able" "Kzoo zone zero"
             false [] (fst declined) (snd declined)).
    + reflexivity.
    + reflexivity.
    + intros _. reflexivity.
    + vm_compute; reflexivity.
    + reflexivity.
    + vm_compute; reflexivity.
  - apply (overwrite_guard Sample.hash Sample.seal Sample.open "alice" Flashpath
             (Sample.device [Answer true]) "abandon ability able" "Kzoo zone zero"
             true [] (fst confirmed) (snd confirmed)).
    + reflexivity.
    + reflexivity.
    + intros _. reflexivity.
    + vm_compute; reflexivity.
    + reflexivity.
    + vm_compute; reflexivity.
Defined.

Lemma successful_load_resets_session_witness :
  let w := Sample.device [] in
  let loaded_w :=
    snd (load_mnemonic Sample.hash Sample.open (Some Flashpath)
           (Some "reckless.alice") w) in
  let saved_w :=
    snd (save_mnemonic Sample.hash Sample.seal Sample.open "carol" (Some Flashpath) w) in
  password w = "hunter2" /\ password loaded_w = "" /\ password saved_w = "".
Proof.
  intros w loaded_w saved_w. split; [reflexivity|]. split.
  - destruct (proj1 (successful_load_resets_session Sample.hash Sample.seal Sample.open
                       w loaded_w) (Some Flashpath) (Some "reckless.alice"))
      as (p & f & blob & r & text & _ & _ & _ & _ & _ & Hpw).
    { vm_compute; reflexivity. }
    exact Hpw.
  - destruct (proj2 (successful_load_resets_session Sample.hash Sample.seal Sample.open
                       w saved_w) "carol" (Some Flashpath))
      as (p & blob & r & text & _ & _ & _ & _ & _ & Hpw).
    { vm_compute; reflexivity. }
    exact Hpw.
Defined.

(** ** Instances of the further statements *)

Lemma get_keypath_brackets_mount_witness :
  let w := Sample.device [Tap 2] in
  let r := get_keypath "Where to save?" false None w in
  frame w (snd r) /\ sd_mounted (snd r) = false.
Proof.
  intros w r.
  apply (get_keypath_brackets_mount "Where to save?" false None w (fst r) (snd r)).
  vm_compute; reflexivity.
Defined.

Lemma get_keypath_returns_enabled_witness :
  let w := Sample.device [Tap 2] in
  sd_present w = true /\ path_exists w "/sd" = true.
Proof.
  intros w.
  destruct (get_keypath_returns_enabled "From where to load?" true None w
              (Some (Str "/sd"))
              (snd (get_keypath "From where to load?" true None w)))
    as [H|[[H _]|(_ & Hp & He)]].
  - vm_compute; reflexivity.
  - discriminate H.
  - discriminate H.
  - split; [exact Hp|exact (He eq_refl)].
Defined.

Lemma save_refused_without_phrase_witness :
  exists msg,
    save_mnemonic Sample.hash Sample.seal Sample.open "carol" None (Sample.locked_device [])
    = (Raised (KeyStoreError msg), Sample.locked_device []).
Proof.
  apply (save_refused_without_phrase Sample.hash Sample.seal Sample.open "carol" None
           (Sample.locked_device [])).
  left. reflexivity.
Defined.

Lemma sd_card_absent_refused_witness :
  let w := card_removed (Sample.device []) in
  delete_mnemonic Sample.hash (Some (Str "/sd")) w
  = (Raised (KeyStoreError "SD card is not present"), w).
Proof.
  intros w.
  apply (sd_card_absent_refused Sample.hash Sample.seal Sample.open "carol" None
           (Str "/sd") w).
  - reflexivity.
  - reflexivity.
Defined.

Lemma load_mnemonic_fails_closed_witness :
  let w := Sample.device [] in
  let r := load_mnemonic Sample.hash Sample.open_never (Some (Str "/sd"))
             (Some "specterdiy73646964.alice") w in
  files (snd r) = files w
  /\ mnemonic (snd r) = mnemonic w /\ password (snd r) = password w.
Proof.
  intros w r.
  destruct (load_mnemonic_fails_closed Sample.hash Sample.open_never (Some (Str "/sd"))
              (Some "specterdiy73646964.alice") w (fst r) (snd r)) as [Hf Hs].
  { vm_compute; reflexivity. }
  split; [exact Hf|]. apply Hs. vm_compute. discriminate.
Defined.

Lemma load_missing_file_witness :
  let w := Sample.device [] in
  load_mnemonic Sample.hash Sample.open (Some Flashpath) (Some "reckless.zed") w
  = (Raised (KeyStoreError "Key is not saved"),
     log (EvPrint "loading reckless.zed") w).
Proof.
  intros w.
  apply (load_missing_file Sample.hash Sample.open Flashpath "reckless.zed" w).
  - reflexivity.
  - intros _. reflexivity.
  - vm_compute; reflexivity.
Defined.

Lemma load_named_file_witness :
  let w := Sample.device [] in
  exists w',
    load_mnemonic Sample.hash Sample.open (Some Flashpath) (Some "reckless.alice") w
    = (Returned PyTrue, w')
    /\ mnemonic w' = Some "zoo zone zero" /\ password w' = "".
Proof.
  intros w.
  destruct (load_named_file Sample.hash Sample.open Flashpath "reckless.alice" w
              "Kzoo zone zero") as (w' & _ & H).
  - reflexivity.
  - intros _. reflexivity.
  - vm_compute; reflexivity.
  - destruct H as (H1 & _ & H2 & H3 & _).
    exists w'. split; [exact H1|]. split; [exact H2|exact H3].
Defined.

Lemma save_touches_only_target_witness :
  let w := Sample.device [] in
  let r := save_mnemonic Sample.hash Sample.seal Sample.open "carol" (Some Flashpath) w in
  files (snd r) = files w
  \/ exists p phrase,
       (forall p0, Some Flashpath = Some p0 -> p = p0)
       /\ mnemonic w = Some phrase
       /\ files (snd r)
          = <[target_of Sample.hash w p "carol" := blob_of Sample.seal w phrase]> (files w).
Proof.
  intros w r.
  apply (save_touches_only_target Sample.hash Sample.seal Sample.open "carol"
           (Some Flashpath) w (fst r) (snd r)).
  vm_compute; reflexivity.
Defined.

Lemma save_keeps_other_names_witness :
  let w := Sample.device [] in
  let r := save_mnemonic Sample.hash Sample.seal Sample.open "carol" (Some Flashpath) w in
  files (snd r) !! target_of Sample.hash w Flashpath "alice"
  = files w !! target_of Sample.hash w Flashpath "alice".
Proof.
  intros w r.
  apply (save_keeps_other_names Sample.hash Sample.seal Sample.open "carol" "alice"
           Flashpath w (fst r) (snd r)).
  - discriminate.
  - vm_compute; reflexivity.
Defined.

Lemma save_to_free_name_witness :
  let w := Sample.device [] in
  exists w',
    save_mnemonic Sample.hash Sample.seal Sample.open "carol" (Some (Str "/sd")) w
    = (Returned PyTrue, w')
    /\ answers w' = []
    /\ sd_mounted w' = false.
Proof.
  intros w.
  destruct (save_to_free_name Sample.hash Sample.seal Sample.open "carol" (Str "/sd") w
              "abandon ability able" ("", "abandon ability able") "abandon ability able")
    as (w' & H1 & H2 & _ & _ & _ & H5).
  - reflexivity.
  - reflexivity.
  - intros _. reflexivity.
  - vm_compute; reflexivity.
  - vm_compute; reflexivity.
  - vm_compute; reflexivity.
  - exists w'. split; [exact H1|]. split; [exact H2|]. apply H5. reflexivity.
Defined.

Lemma success_leaves_card_unmounted_witness :
  let w := Sample.device [] in
  sd_mounted
    (snd (save_mnemonic Sample.hash Sample.seal Sample.open "carol" (Some (Str "/sd")) w))
  = false.
Proof.
  intros w.
  apply (proj1 (success_leaves_card_unmounted Sample.hash Sample.seal Sample.open w
                  (snd (save_mnemonic Sample.hash Sample.seal Sample.open "carol"
                          (Some (Str "/sd")) w)))
           "carol" (Str "/sd")).
  - vm_compute; reflexivity.
  - reflexivity.
Defined.

Lemma select_file_returns_listed_witness :
  let w := Sample.device [Tap 0] in
  PyStr.startswith "reckless.alice" "reckless" = true
  /\ path_exists w "/flash/reckless.alice" = true.
Proof.
  intros w.
  apply (select_file_returns_listed Flashpath "reckless" w "reckless.alice"
           (snd (select_file Flashpath "reckless" w))).
  vm_compute; reflexivity.
Defined.

Lemma select_file_no_match_witness :
  let w := Sample.locked_device [] in
  select_file (Str "/sd") "specterdiy" w
  = (Raised (KeyStoreError (nl ++ nl ++ "No matching files found")), w).
Proof.
  intros w.
  apply (select_file_no_match (Str "/sd") "specterdiy" w).
  - vm_compute. set_solver.
  - intros name H. exfalso. unfold path_exists, w, Sample.locked_device in H.
    cbn [files dirs path_value] in H.
    apply orb_true_iff in H as [H|H]; apply bool_decide_eq_true in H.
    + destruct H as [v H]. apply lookup_singleton_Some in H as [H _].
      discriminate H.
    + apply elem_of_union in H as [H|H];
        apply elem_of_singleton in H; discriminate H.
Defined.


Lemma delete_removes_only_own_record_witness :
  let w := Sample.device [Tap 1] in
  let r := delete_mnemonic Sample.hash (Some Flashpath) w in
  files (snd r) = files w
  \/ exists p f,
       (forall p0, Some Flashpath = Some p0 -> p = p0)
       /\ PyStr.startswith f (fileprefix Sample.hash w p) = true
       /\ fst r = Returned PyTrue
       /\ files (snd r) = delete (path_value w p ++ "/" ++ f) (files w).
Proof.
  intros w r.
  apply (delete_removes_only_own_record Sample.hash (Some Flashpath) w (fst r) (snd r)).
  vm_compute; reflexivity.
Defined.

Lemma delete_picked_record_witness :
  let w := Sample.device [Tap 1] in
  exists w',
    delete_mnemonic Sample.hash (Some Flashpath) w = (Returned PyTrue, w')
    /\ files w' = delete "/flash/reckless.my.reckless.key" (files w).
Proof.
  intros w.
  destruct (delete_picked_record Sample.hash Flashpath w "reckless.my.reckless.key"
              (snd (select_file Flashpath "reckless" w)) "Kzoo zone zero")
    as (w' & H1 & H2 & _).
  - intros _. reflexivity.
  - vm_compute; reflexivity.
  - vm_compute; reflexivity.
  - intros H. vm_compute in H. discriminate H.
  - exists w'. split; [exact H1|exact H2].
Defined.

Lemma saved_name_is_label_witness :
  displayname "reckless.alice" "reckless" = "alice".
Proof.
  apply (saved_name_is_label Sample.hash (Sample.device []) Flashpath "alice").
  vm_compute; reflexivity.
Defined.

Lemma media_menu_cancelled_witness :
  let w := Sample.device [Back] in
  exists w',
    delete_mnemonic Sample.hash None w = (Returned PyFalse, w')
    /\ answers w' = [] /\ sd_mounted w' = false.
Proof.
  intros w.
  destruct (media_menu_cancelled Sample.hash Sample.seal Sample.open "carol" None w [])
    as ((w' & H1 & _ & H2 & H3) & _).
  - reflexivity.
  - exists w'. split; [exact H1|]. split; [exact H2|]. apply H3. reflexivity.
Defined.

Lemma storage_menu_fuel_witness :
  fst (storage_menu Sample.hash Sample.seal Sample.open 3
         (Sample.device [Tap 5; Dismiss]))
  <> OutOfFuel.
Proof.
  apply (storage_menu_fuel Sample.hash Sample.seal Sample.open 3
           (Sample.device [Tap 5; Dismiss])).
  simpl. lia.
Defined.

Lemma storage_menu_passes_errors_on_witness :
  let w := Sample.locked_device [Tap 2] in
  fst (storage_menu Sample.hash Sample.seal Sample.open 1 w)
  = Raised (KeyStoreError "Keystore is locked").
Proof.
  intros w.
  rewrite (proj1 (storage_menu_passes_errors_on Sample.hash Sample.seal Sample.open 0 w
                    (KeyStoreError "Keystore is locked")
                    (with_answers [] (log (EvShow storage_screen) w)))
             [] eq_refl).
  - reflexivity.
  - vm_compute; reflexivity.
Defined.
